(** * two_captcha: the CAPTCHA solving glue of cdc-bot

    A shallow embedding of [src/utils/captcha/two_captcha.py].

    The Python class [Captcha] drives two outside parties, a Selenium
    browser session and the 2Captcha solving service, and a little local
    state (log lines, files under [temp/] and [solved_captchas/]).  The
    embedding threads one [world] through every method and keeps Python's
    exceptions as a second kind of outcome, so that the [try] / [except] /
    [else] / [finally] of [_solve_captcha] can be written out clause by
    clause.

    Conventions.
    - A Python [str] is a [string]; the texts the module handles (element
      ids, data URIs, solver codes) are ASCII.
    - A [bytes] value is a [list Z] of numbers below 256.
    - File paths are POSIX paths; the file system is a finite map from a
      path to the bytes stored there.
    - The application's directories [temp/] and [solved_captchas/] exist
      and can be written to; whether a file can be created at any other
      path is for the machine to say (the world's [open_error]).
    - Wall-clock time ([time.perf_counter], [time.sleep]) is not modelled:
      sleeping is a no-op and the elapsed seconds are left out of the two
      log lines that print them. *)

From Stdlib Require Import ZArith String Ascii List Bool Lia.
From stdpp Require Import base option list gmap strings.

Local Open Scope Z_scope.

(** ** Python values and exceptions *)

(** The exception classes the module names or can meet.  The first three are
    the ones [_solve_captcha] imports from [twocaptcha]; [KeyboardInterrupt]
    and [SystemExit] derive from [BaseException] only, every other class
    derives from [Exception]. *)
Inductive exc_class : Type :=
  | TimeoutException
  | NetworkException
  | ApiException
  | TypeError
  | ValueError
  | KeyError
  | AttributeError
  | binascii_Error
  | FileNotFoundError
  | NoSuchElementException
  | ElementNotInteractableException
  | WaitTimeoutException
  | OtherException (name : string)
  | KeyboardInterrupt
  | SystemExit.

Record exn : Type := Exn { exc_type : exc_class; exc_args : string }.

Definition is_TimeoutException (e : exn) : bool :=
  match exc_type e with TimeoutException => true | _ => false end.

Definition is_NetworkException (e : exn) : bool :=
  match exc_type e with NetworkException => true | _ => false end.

Definition is_ApiException (e : exn) : bool :=
  match exc_type e with ApiException => true | _ => false end.

(** [isinstance(e, Exception)]. *)
Definition is_Exception (e : exn) : bool :=
  match exc_type e with
  | KeyboardInterrupt | SystemExit => false
  | _ => true
  end.

#[warnings="-register-all"]
Inductive pyval : Type :=
  | VNone
  | VBool (b : bool)
  | VStr (s : string)
  | VExc (e : exn)
  | VElem (i : nat)
  | VTuple (items : list pyval)
  | VDict (entries : list (string * pyval)).

(** Truth value of an object in an [if] or under [and] / [or]. *)
Definition truthy (v : pyval) : bool :=
  match v with
  | VNone => false
  | VBool b => b
  | VStr s => negb (String.eqb s "")
  | VExc _ => true
  | VElem _ => true
  | VTuple items => negb (Nat.eqb (length items) 0)
  | VDict entries => negb (Nat.eqb (length entries) 0)
  end.

(** [v == s] for a string literal [s]. *)
Definition eq_str (v : pyval) (s : string) : bool :=
  match v with
  | VStr t => String.eqb t s
  | _ => false
  end.

Inductive outcome (A : Type) : Type :=
  | Return (a : A)
  | Raise (e : exn).
Arguments Return {A} a.
Arguments Raise {A} e.

Fixpoint assoc {A : Type} (k : string) (kv : list (string * A)) : option A :=
  match kv with
  | [] => None
  | (k', v) :: rest => if String.eqb k k' then Some v else assoc k rest
  end.

(** [v[k]] for a string key. *)
Definition getitem (v : pyval) (k : string) : outcome pyval :=
  match v with
  | VDict entries =>
      match assoc k entries with
      | Some x => Return x
      | None => Raise (Exn KeyError k)
      end
  | _ => Raise (Exn TypeError "subscript")
  end.

Fixpoint chars (s : string) : list pyval :=
  match s with
  | EmptyString => []
  | String c rest => VStr (String c EmptyString) :: chars rest
  end.

(** The items an iterable yields: a tuple its members, a dict its keys, a
    string its characters.  [None], booleans, exception objects and web
    elements are not iterable. *)
Definition iter_items (v : pyval) : option (list pyval) :=
  match v with
  | VTuple items => Some items
  | VDict entries => Some (map (fun kv => VStr (fst kv)) entries)
  | VStr s => Some (chars s)
  | _ => None
  end.

(** [a, b, c = v]. *)
Definition unpack3 (v : pyval) : outcome (pyval * pyval * pyval) :=
  match iter_items v with
  | None => Raise (Exn TypeError "cannot unpack non-iterable object")
  | Some [a; b; c] => Return (a, b, c)
  | Some _ => Raise (Exn ValueError "unpack")
  end.

Definition class_name (c : exc_class) : string :=
  match c with
  | TimeoutException => "TimeoutException"
  | NetworkException => "NetworkException"
  | ApiException => "ApiException"
  | TypeError => "TypeError"
  | ValueError => "ValueError"
  | KeyError => "KeyError"
  | AttributeError => "AttributeError"
  | binascii_Error => "Error"
  | FileNotFoundError => "FileNotFoundError"
  | NoSuchElementException => "NoSuchElementException"
  | ElementNotInteractableException => "ElementNotInteractableException"
  | WaitTimeoutException => "TimeoutException"
  | OtherException name => name
  | KeyboardInterrupt => "KeyboardInterrupt"
  | SystemExit => "SystemExit"
  end.

Fixpoint join_with (sep : string) (parts : list string) : string :=
  match parts with
  | [] => ""
  | [p] => p
  | p :: rest => p +:+ sep +:+ join_with sep rest
  end.

Fixpoint has_char (c : ascii) (s : string) : bool :=
  match s with
  | EmptyString => false
  | String x rest => Ascii.eqb x c || has_char c rest
  end.

Definition hex_digit (n : N) : ascii :=
  if (n <? 10)%N then ascii_of_N (48 + n) else ascii_of_N (87 + n).

(** One character inside [repr] of a string written between quotes [q]: the
    backslash and the quote are escaped, tab, line feed and carriage return
    take their letter, the other control characters their [\xNN] code.
    Bytes from 128 on are kept (they stand for printable text). *)
Definition repr_char (q c : ascii) : string :=
  let n := N_of_ascii c in
  let backslash := ascii_of_N 92 in
  if (n =? 92)%N then String backslash (String backslash EmptyString)
  else if Ascii.eqb c q then String backslash (String q EmptyString)
  else if (n =? 9)%N then String backslash "t"
  else if (n =? 10)%N then String backslash "n"
  else if (n =? 13)%N then String backslash "r"
  else if (n <? 32)%N || (n =? 127)%N
       then String backslash
              (String "x" (String (hex_digit (n / 16)) (String (hex_digit (n mod 16))
                                                          EmptyString)))
  else String c EmptyString.

Fixpoint repr_chars (q : ascii) (s : string) : string :=
  match s with
  | EmptyString => EmptyString
  | String c rest => repr_char q c +:+ repr_chars q rest
  end.

(** [repr] of a string: single quotes, unless the string holds a single
    quote and no double quote. *)
Definition repr_str (s : string) : string :=
  let q := if has_char "'" s && negb (has_char (ascii_of_N 34) s)
           then ascii_of_N 34 else "'"%char in
  String q (repr_chars q s +:+ String q EmptyString).

(** [repr(v)].  A web element prints as a fixed tag (Selenium prints its
    session and element ids). *)
Fixpoint repr (v : pyval) : string :=
  match v with
  | VNone => "None"
  | VBool true => "True"
  | VBool false => "False"
  | VStr s => repr_str s
  | VExc e => class_name (exc_type e) +:+ "(" +:+ repr_str (exc_args e) +:+ ")"
  | VElem _ => "<WebElement>"
  | VTuple items =>
      match items with
      | [x] => "(" +:+ repr x +:+ ",)"
      | _ => "(" +:+ join_with ", " (map repr items) +:+ ")"
      end
  | VDict entries =>
      "{" +:+ join_with ", "
                (map (fun kv => repr_str (fst kv) +:+ ": " +:+ repr (snd kv)) entries)
          +:+ "}"
  end.

(** [str(v)], also what an f-string substitutes for [{v}].  An exception
    prints its argument; a [KeyError] prints the [repr] of the key. *)
Definition str (v : pyval) : string :=
  match v with
  | VStr s => s
  | VExc e =>
      match exc_type e with
      | KeyError => repr_str (exc_args e)
      | _ => exc_args e
      end
  | _ => repr v
  end.

(** ** The world the methods act on *)

(** A DOM element: its attributes (among them [id], [src], [data-sitekey]
    and the current [value]) and whether Selenium may type into it. *)
Record element : Type := Element {
  el_attrs : list (string * string);
  el_interactable : bool
}.

(** What the module asks of the solving service. *)
Inductive solve_request : Type :=
  | ReqNormal (image : list Z) (caseSensitive minLength maxLength : Z)
  | ReqRecaptcha (sitekey : pyval) (url : string)
  | ReqTurnstile (sitekey url action data pagedata useragent : pyval).

Inductive log_line : Type :=
  | LogDebug (text : string)
  | LogDebugValue (v : pyval)
  | LogError (text : string)
  | LogTraceback (e : exn)
  | LogTook (manually : bool) (kind : string).

(** Everything a method can read or change.  The page is the list of DOM
    elements in document order and a web element handle is an index into it;
    [js_calls] keeps every [execute_script] call with its arguments;
    [service] is the solving service's answer to a request and [requests]
    the requests sent so far; [xpath_text] is the text of the clickable
    element an XPath locator finds within the wait, if any; [calls] is the
    trace of methods entered; [open_error] is the error, if any, with which
    the operating system refuses to create a file at a path (a missing
    directory, no permission, a name it does not take). *)
Record world : Type := World {
  fs : gmap string (list Z);
  page : list element;
  current_url : string;
  js_calls : list (string * list pyval);
  refreshes : nat;
  browser_log : list string;
  xpath_text : string -> option string;
  service : solve_request -> outcome pyval;
  requests : list solve_request;
  log_lines : list log_line;
  stdout : list string;
  prompts : list string;
  calls : list string;
  open_error : string -> option exn
}.

Definition set_fs (f : gmap string (list Z)) (w : world) : world :=
  World f (page w) (current_url w) (js_calls w) (refreshes w) (browser_log w)
        (xpath_text w) (service w) (requests w) (log_lines w) (stdout w)
        (prompts w) (calls w) (open_error w).

Definition set_page (p : list element) (w : world) : world :=
  World (fs w) p (current_url w) (js_calls w) (refreshes w) (browser_log w)
        (xpath_text w) (service w) (requests w) (log_lines w) (stdout w)
        (prompts w) (calls w) (open_error w).

Definition set_js_calls (j : list (string * list pyval)) (w : world) : world :=
  World (fs w) (page w) (current_url w) j (refreshes w) (browser_log w)
        (xpath_text w) (service w) (requests w) (log_lines w) (stdout w)
        (prompts w) (calls w) (open_error w).

Definition set_refreshes (n : nat) (w : world) : world :=
  World (fs w) (page w) (current_url w) (js_calls w) n (browser_log w)
        (xpath_text w) (service w) (requests w) (log_lines w) (stdout w)
        (prompts w) (calls w) (open_error w).

Definition set_requests (r : list solve_request) (w : world) : world :=
  World (fs w) (page w) (current_url w) (js_calls w) (refreshes w) (browser_log w)
        (xpath_text w) (service w) r (log_lines w) (stdout w)
        (prompts w) (calls w) (open_error w).

Definition set_log_lines (l : list log_line) (w : world) : world :=
  World (fs w) (page w) (current_url w) (js_calls w) (refreshes w) (browser_log w)
        (xpath_text w) (service w) (requests w) l (stdout w)
        (prompts w) (calls w) (open_error w).

Definition set_stdout (o : list string) (w : world) : world :=
  World (fs w) (page w) (current_url w) (js_calls w) (refreshes w) (browser_log w)
        (xpath_text w) (service w) (requests w) (log_lines w) o
        (prompts w) (calls w) (open_error w).

Definition set_prompts (p : list string) (w : world) : world :=
  World (fs w) (page w) (current_url w) (js_calls w) (refreshes w) (browser_log w)
        (xpath_text w) (service w) (requests w) (log_lines w) (stdout w)
        p (calls w) (open_error w).

Definition set_calls (c : list string) (w : world) : world :=
  World (fs w) (page w) (current_url w) (js_calls w) (refreshes w) (browser_log w)
        (xpath_text w) (service w) (requests w) (log_lines w) (stdout w)
        (prompts w) c (open_error w).

(** ** Computations: state passing with Python exceptions

    A raised exception keeps the world as it was when it was raised. *)
Definition M (A : Type) : Type := world -> outcome A * world.

Definition ret {A : Type} (a : A) : M A := fun w => (Return a, w).

Definition raise {A : Type} (e : exn) : M A := fun w => (Raise e, w).

Definition bind {A B : Type} (m : M A) (k : A -> M B) : M B :=
  fun w =>
    match m w with
    | (Return a, w') => k a w'
    | (Raise e, w') => (Raise e, w')
    end.

Definition lift {A : Type} (o : outcome A) : M A := fun w => (o, w).

Definition modify (f : world -> world) : M unit := fun w => (Return tt, f w).

Definition gets {A : Type} (f : world -> A) : M A := fun w => (Return (f w), w).

Declare Scope py_scope.
Delimit Scope py_scope with py.
Notation "'let!' x ':=' m 'in' k" := (bind m (fun x => k))
  (at level 10, x name, m at level 100, k at level 200) : py_scope.
Notation "'do!' m 'in' k" := (bind m (fun _ => k))
  (at level 10, m at level 100, k at level 200) : py_scope.
Local Open Scope py_scope.

(** Entering a method leaves its name on the call trace. *)
Definition entered (name : string) (w : world) : world :=
  set_calls (calls w ++ [name]) w.

Definition enter (name : string) : M unit := modify (entered name).

(** ** Strings, bytes and paths *)

Fixpoint drop_chars (n : nat) (s : string) : string :=
  match n, s with
  | O, _ => s
  | S n', String _ rest => drop_chars n' rest
  | S _, EmptyString => EmptyString
  end.

(** [v[n:]]: slicing a string; [None] is not subscriptable. *)
Definition slice_from (n : nat) (v : pyval) : outcome string :=
  match v with
  | VStr s => Return (drop_chars n s)
  | _ => Raise (Exn TypeError "object is not subscriptable")
  end.

(** [str.encode] on ASCII text. *)
Fixpoint encode (s : string) : list Z :=
  match s with
  | EmptyString => []
  | String c rest => Z.of_N (N_of_ascii c) :: encode rest
  end.

Definition lower_char (c : ascii) : ascii :=
  let n := N_of_ascii c in
  if (65 <=? n)%N && (n <=? 90)%N then ascii_of_N (n + 32) else c.

Definition upper_char (c : ascii) : ascii :=
  let n := N_of_ascii c in
  if (97 <=? n)%N && (n <=? 122)%N then ascii_of_N (n - 32) else c.

Fixpoint map_chars (f : ascii -> ascii) (s : string) : string :=
  match s with
  | EmptyString => EmptyString
  | String c rest => String (f c) (map_chars f rest)
  end.

(** [s.lower()] and [s.upper()] on ASCII text. *)
Definition lower (s : string) : string := map_chars lower_char s.
Definition upper (s : string) : string := map_chars upper_char s.

Definition starts_with_slash (s : string) : bool :=
  match s with
  | String "/" _ => true
  | _ => false
  end.

Fixpoint ends_with_slash (s : string) : bool :=
  match s with
  | EmptyString => false
  | String c EmptyString => Ascii.eqb c "/"
  | String _ rest => ends_with_slash rest
  end.

(** The one-character string holding a double quote. *)
Definition dquote : string := String (ascii_of_N 34) EmptyString.

(** [os.path.join(a, b)] of [posixpath]: an absolute second part replaces
    the first. *)
Definition os_path_join (a b : string) : string :=
  if starts_with_slash b then b
  else if String.eqb a "" || ends_with_slash a then a +:+ b
  else a +:+ "/" +:+ b.

(** *** [base64.decodebytes]

    It is [binascii.a2b_base64] in its default, lenient mode: bytes outside
    the alphabet are skipped, a pad that completes a quad ends the input, and
    an incomplete last quad is an error. *)

Definition table_a2b_base64 (c : Z) : option Z :=
  if (65 <=? c) && (c <=? 90) then Some (c - 65)
  else if (97 <=? c) && (c <=? 122) then Some (c - 71)
  else if (48 <=? c) && (c <=? 57) then Some (c + 4)
  else if c =? 43 then Some 62
  else if c =? 47 then Some 63
  else None.

Definition BASE64_PAD : Z := 61.

(** The decoder's loop: [quad_pos] counts the sextets of the current quad,
    [leftchar] holds the bits not yet written, [pads] the pad characters seen
    since the last sextet; [acc] is the output so far, last byte first. *)
Fixpoint a2b_loop (input : list Z) (quad_pos : nat) (leftchar : Z) (pads : nat)
    (acc : list Z) : outcome (list Z) :=
  match input with
  | [] =>
      match quad_pos with
      | O => Return (rev acc)
      | S O => Raise (Exn binascii_Error "Invalid base64-encoded string")
      | _ => Raise (Exn binascii_Error "Incorrect padding")
      end
  | this_ch :: rest =>
      if this_ch =? BASE64_PAD then
        if (2 <=? quad_pos)%nat then
          if (4 <=? quad_pos + S pads)%nat then Return (rev acc)
          else a2b_loop rest quad_pos leftchar (S pads) acc
        else a2b_loop rest quad_pos leftchar pads acc
      else
        match table_a2b_base64 this_ch with
        | None => a2b_loop rest quad_pos leftchar pads acc
        | Some v =>
            match quad_pos with
            | O => a2b_loop rest 1 v 0 acc
            | S O =>
                a2b_loop rest 2 (Z.land v 15) 0
                  (Z.lor (Z.shiftl leftchar 2) (Z.shiftr v 4) :: acc)
            | S (S O) =>
                a2b_loop rest 3 (Z.land v 3) 0
                  (Z.lor (Z.shiftl leftchar 4) (Z.shiftr v 2) :: acc)
            | _ =>
                a2b_loop rest 0 0 0 (Z.lor (Z.shiftl leftchar 6) v :: acc)
            end
        end
  end.

Definition decodebytes (s : list Z) : outcome (list Z) := a2b_loop s 0 0 0 [].

(** ** The browser session (Selenium) *)

Inductive By : Type := By_ID | By_CSS_SELECTOR | By_XPATH.

Definition has_attr (name : string) (el : element) : bool :=
  match assoc name (el_attrs el) with
  | Some _ => true
  | None => false
  end.

Definition attr_is (name value : string) (el : element) : bool :=
  match assoc name (el_attrs el) with
  | Some x => String.eqb x value
  | None => false
  end.

Fixpoint strip_closing_bracket (s : string) : option string :=
  match s with
  | EmptyString => None
  | String "]" EmptyString => Some EmptyString
  | String c rest =>
      match strip_closing_bracket rest with
      | Some inner => Some (String c inner)
      | None => None
      end
  end.

(** The attribute a CSS selector of the shape [[name]] asks for; the module
    uses no other shape. *)
Definition css_attribute (selector : string) : option string :=
  match selector with
  | String "[" rest => strip_closing_bracket rest
  | _ => None
  end.

Definition matches (by_ : By) (value : string) (el : element) : bool :=
  match by_ with
  | By_ID => attr_is "id" value el
  | By_CSS_SELECTOR =>
      match css_attribute value with
      | Some name => has_attr name el
      | None => false
      end
  | By_XPATH => false
  end.

Fixpoint first_index {A : Type} (p : A -> bool) (l : list A) (i : nat) : option nat :=
  match l with
  | [] => None
  | x :: rest => if p x then Some i else first_index p rest (S i)
  end.

Definition locate (by_ : By) (value : string) (w : world) : option nat :=
  first_index (matches by_ value) (page w) 0.

(** [driver.find_element(by, value)]. *)
Definition find_element (by_ : By) (value : string) : M pyval :=
  fun w =>
    match locate by_ value w with
    | Some i => (Return (VElem i), w)
    | None => (Raise (Exn NoSuchElementException value), w)
    end.

(** Modelled from the spec: [selenium_common.is_elem_present] is not among
    the sources; the browser contract of the spec lists it as find-element
    with a nullable result: the element, or a null value when absent. *)
Definition is_elem_present (by_ : By) (value : string) : M pyval :=
  fun w =>
    match locate by_ value w with
    | Some i => (Return (VElem i), w)
    | None => (Return VNone, w)
    end.

(** [element.get_attribute(name)]: the attribute's text or [None]. *)
Definition get_attribute (el : pyval) (name : string) : M pyval :=
  fun w =>
    match el with
    | VElem i =>
        match page w !! i with
        | Some e =>
            match assoc name (el_attrs e) with
            | Some x => (Return (VStr x), w)
            | None => (Return VNone, w)
            end
        | None => (Raise (Exn (OtherException "StaleElementReferenceException") name), w)
        end
    | _ => (Raise (Exn AttributeError "get_attribute"), w)
    end.

Fixpoint set_assoc (k v : string) (kv : list (string * string)) : list (string * string) :=
  match kv with
  | [] => [(k, v)]
  | (k', v') :: rest =>
      if String.eqb k k' then (k, v) :: rest else (k', v') :: set_assoc k v rest
  end.

Definition value_of (e : element) : string :=
  match assoc "value" (el_attrs e) with
  | Some x => x
  | None => ""
  end.

Definition type_into (e : element) (text : string) : element :=
  Element (set_assoc "value" (value_of e +:+ text) (el_attrs e)) (el_interactable e).

(** [element.send_keys(text)]: simulated typing appends to the element's
    value; an element that cannot be interacted with refuses it. *)
Definition send_keys (el : pyval) (text : string) : M unit :=
  fun w =>
    match el with
    | VElem i =>
        match page w !! i with
        | Some e =>
            if el_interactable e
            then (Return tt, set_page (<[i := type_into e text]> (page w)) w)
            else (Raise (Exn ElementNotInteractableException "send_keys"), w)
        | None => (Raise (Exn (OtherException "StaleElementReferenceException") "send_keys"), w)
        end
    | _ => (Raise (Exn AttributeError "send_keys"), w)
    end.

(** [driver.execute_script(script, *args)]: the browser is an outside party;
    the call is recorded with its script text and arguments. *)
Definition execute_script (script : string) (args : list pyval) : M unit :=
  modify (fun w => set_js_calls (js_calls w ++ [(script, args)]) w).

Definition refresh : M unit :=
  modify (fun w => set_refreshes (S (refreshes w)) w).

Definition get_log_browser : M (list string) := gets browser_log.

(** [WebDriverWait(driver, 30).until(EC.element_to_be_clickable((By.XPATH,
    locator))).text]. *)
Definition wait_clickable_text (locator : string) : M string :=
  fun w =>
    match xpath_text w locator with
    | Some t => (Return t, w)
    | None => (Raise (Exn WaitTimeoutException locator), w)
    end.

(** ** Files, console and log *)

Fixpoint strip_prefix (p s : string) : option string :=
  match p, s with
  | EmptyString, _ => Some s
  | String a p', String b s' => if Ascii.eqb a b then strip_prefix p' s' else None
  | String _ _, EmptyString => None
  end.

(** A name the file system takes for a file: not empty, at most 255 bytes,
    without a slash or a NUL byte, and neither of the two dot entries. *)
Definition plain_name (name : string) : bool :=
  negb (String.eqb name "") && (String.length name <=? 255)%nat
  && negb (has_char "/" name) && negb (has_char (ascii_of_N 0) name)
  && negb (String.eqb name ".") && negb (String.eqb name "..").

(** The application's own two directories, [temp] and [solved_captchas],
    exist and can be written to: a file directly inside one of them, under
    a plain name, can always be created. *)
Definition app_file (path : string) : bool :=
  match strip_prefix "temp/" path with
  | Some name => plain_name name
  | None =>
      match strip_prefix "solved_captchas/" path with
      | Some name => plain_name name
      | None => false
      end
  end.

(** The error, if any, of creating a file at the path: none for the
    application's own files, the operating system's answer for every other
    path. *)
Definition os_error (refused : string -> option exn) (path : string) : option exn :=
  if app_file path then None else refused path.

(** [open(path, "wb")] creates the file or empties it; where the file
    cannot be created it raises and changes nothing. *)
Definition open_wb (path : string) : M unit :=
  fun w =>
    match os_error (open_error w) path with
    | None => (Return tt, set_fs (<[path := []]> (fs w)) w)
    | Some e => (Raise e, w)
    end.

Definition file_write (path : string) (data : list Z) : M unit :=
  modify (fun w => set_fs (<[path := data]> (fs w)) w).

(** [os.rename(src, dst)]: a missing source or a destination that cannot be
    created raises and changes nothing. *)
Definition os_rename (src dst : string) : M unit :=
  fun w =>
    match fs w !! src with
    | Some data =>
        match os_error (open_error w) dst with
        | None => (Return tt, set_fs (<[dst := data]> (delete src (fs w))) w)
        | Some e => (Raise e, w)
        end
    | None => (Raise (Exn FileNotFoundError src), w)
    end.

(** Modelled from the spec: [utils.remove_files] is not among the sources;
    the spec has the temp file deleted. *)
Definition remove_files (paths : list string) : M unit :=
  modify (fun w => set_fs (foldr delete (fs w) paths) w).

Definition print (text : string) : M unit :=
  modify (fun w => set_stdout (stdout w ++ [text]) w).

(** [input(prompt)]: the prompt is shown and the call waits for the
    operator's line, which the module discards. *)
Definition input (prompt : string) : M unit :=
  modify (fun w => set_prompts (prompts w ++ [prompt]) w).

Definition time_sleep (seconds : Z) : M unit := ret tt.

Definition emit (l : log_line) (w : world) : world :=
  set_log_lines (log_lines w ++ [l]) w.

(** Modelled from the spec: [Log.debug_if] is not among the sources; the
    spec speaks of debug-gated log lines. *)
Definition logged (flag : bool) (l : log_line) (w : world) : world :=
  if flag then emit l w else w.

Definition debug_if (flag : bool) (l : log_line) : M unit := modify (logged flag l).

Definition log_error (l : log_line) : M unit := modify (emit l).

(** ** The solving service (the [twocaptcha] client)

    Modelled from the spec: the client library is an outside party; a
    request is recorded and answered by the world's [service], by a value or
    by an exception. *)

Definition submit (req : solve_request) : M pyval :=
  fun w => (service w req, set_requests (requests w ++ [req]) w).

(** [solver.normal(file, caseSensitive, minLength, maxLength)]: the client
    reads the image at the path and uploads it. *)
Definition solver_normal (file : string) (caseSensitive minLength maxLength : Z) : M pyval :=
  fun w =>
    match fs w !! file with
    | Some image => submit (ReqNormal image caseSensitive minLength maxLength) w
    | None => (Raise (Exn (OtherException "ValidationException") file), w)
    end.

Definition solver_recaptcha (sitekey : pyval) (url : string) : M pyval :=
  submit (ReqRecaptcha sitekey url).

Definition solver_turnstile (sitekey url action data pagedata useragent : pyval) : M pyval :=
  submit (ReqTurnstile sitekey url action data pagedata useragent).

(** ** class Captcha *)

Record Log : Type := { save_solved_captchas : bool }.

Record Config : Type := {
  api_key : option string;
  cfg_enabled : bool;
  cfg_debug_mode : bool
}.

Definition DEFAULT_CONFIG : Config :=
  {| api_key := None; cfg_enabled := true; cfg_debug_mode := true |}.

Record Captcha : Type := {
  solver_api_key : option string;
  log : Log;
  enabled : bool;
  debug_enabled : bool
}.

Definition Captcha_init (log_ : Log) (config : Config) : Captcha :=
  {| solver_api_key := api_key config;
     log := log_;
     enabled := cfg_enabled config;
     debug_enabled := cfg_debug_mode config |}.

(** The [finally] clause of [_solve_captcha]: log the result and return it.
    The [return] ends the call normally whatever was in flight. *)
Definition finally_return (debug_enabled_ : bool) (result : pyval) : M pyval :=
  do! debug_if debug_enabled_ (LogDebugValue result) in
  ret result.

Definition _solve_captcha (self : Captcha) (solve_callback : M pyval)
    (result_callback : pyval -> M unit) (debug_enabled_ : bool) : M pyval :=
  do! enter "_solve_captcha" in
  fun w =>
    match solve_callback w with
    | (Return result, w1) =>
        (* try body completed: the rest of the try, then the else clause *)
        match debug_if debug_enabled_ (LogDebug "Received 2Captcha response...") w1 with
        | (_, w2) =>
            match result_callback result w2 with
            | (Return _, w3) =>
                finally_return debug_enabled_
                  (VTuple [VBool true; VStr "SOLVED"; result]) w3
            | (Raise _, w3) =>
                (* raised in the else clause: no handler applies, result is
                   still the solver's value when finally returns it *)
                finally_return debug_enabled_ result w3
            end
        end
    | (Raise e, w1) =>
        if is_TimeoutException e then
          (do! debug_if debug_enabled_
                 (LogDebug ("2Captcha API has timed-out! : " +:+ exc_args e)) in
           finally_return debug_enabled_
             (VTuple [VBool false; VStr "TIMEOUT"; VExc e])) w1
        else if is_NetworkException e then
          (do! debug_if debug_enabled_
                 (LogDebug ("2Captcha API has encountered a network error! : "
                            +:+ exc_args e)) in
           finally_return debug_enabled_
             (VTuple [VBool false; VStr "NETWORK_ERROR"; VExc e])) w1
        else if is_ApiException e then
          (do! debug_if debug_enabled_
                 (LogDebug ("2Captcha API has encountered an API error : "
                            +:+ exc_args e)) in
           finally_return debug_enabled_
             (VTuple [VBool false; VStr "API_ERROR"; VExc e])) w1
        else if is_Exception e then
          (do! log_error (LogError (exc_args e)) in
           do! log_error (LogTraceback e) in
           finally_return debug_enabled_
             (VTuple [VBool false; VStr "UNKNOWN_ERROR"; VExc e])) w1
        else
          (* outside Exception: no handler; result is still None *)
          finally_return debug_enabled_ VNone w1
    end.

Definition save_captcha (self : Captcha) (captcha_image_filepath : string) : M pyval :=
  do! enter "save_captcha" in
  let! captcha_element := is_elem_present By_ID "ctl00_ContentPlaceHolder1_CaptchaImg" in
  let! captcha_input :=
    is_elem_present By_ID "ctl00_ContentPlaceHolder1_txtVerificationCode" in
  if truthy captcha_element && truthy captcha_input then
    let! src := get_attribute captcha_element "src" in
    let! img_base64_str := lift (slice_from 23 src) in
    let img_base64 := encode img_base64_str in
    do! open_wb captcha_image_filepath in
    let! image := lift (decodebytes img_base64) in
    do! file_write captcha_image_filepath image in
    ret captcha_input
  else ret (VBool false).

Definition normal_captcha (self : Captcha) (page_url : string) (debug_enabled_ : bool)
    : M pyval :=
  do! enter "normal_captcha" in
  let captcha_image_filepath := os_path_join "temp" "normal_captcha.jpeg" in
  let! captcha_input := save_captcha self captcha_image_filepath in
  if truthy captcha_input then
    let! triple :=
      _solve_captcha self
        (solver_normal captcha_image_filepath 1 6 6)
        (fun result =>
           let! code := lift (getitem result "code") in
           send_keys captcha_input (str code))
        debug_enabled_ in
    let! unpacked := lift (unpack3 triple) in
    let '(success, status, msg) := unpacked in
    do! (if save_solved_captchas (log self) && truthy success && eq_str status "SOLVED"
         then
           let! code := lift (getitem msg "code") in
           os_rename captcha_image_filepath
             (os_path_join "solved_captchas" (str code +:+ ".jpeg"))
         else remove_files [captcha_image_filepath]) in
    ret (VTuple [success; status; msg])
  else ret (VTuple [VBool false; VStr "NO CAPTCHA FOUND IN"; VStr page_url]).

(** The local function of [recaptcha_v2]. *)
Definition submit_captcha_response (result : pyval) : M unit :=
  let! recaptcha_repsonse_element := find_element By_ID "g-recaptcha-response" in
  let! code := lift (getitem result "code") in
  execute_script ("arguments[0].value=" +:+ dquote +:+ str code +:+ dquote)
    [recaptcha_repsonse_element].

Definition recaptcha_v2 (self : Captcha) (page_url : string) (debug_enabled_ : bool)
    : M pyval :=
  do! enter "recaptcha_v2" in
  let! site_key_element := is_elem_present By_CSS_SELECTOR "[data-sitekey]" in
  if truthy site_key_element then
    let! site_key := get_attribute site_key_element "data-sitekey" in
    _solve_captcha self
      (solver_recaptcha site_key page_url)
      (fun result => submit_captcha_response result)
      debug_enabled_
  else ret (VTuple [VBool false; VStr "NO RECAPTCHA_V2 FOUND IN"; VStr page_url]).

(** [x or default] for an optional string argument: [None] and the empty
    string are both false. *)
Definition or_default (x : option string) (default : string) : string :=
  match x with
  | Some s => if String.eqb s "" then default else s
  | None => default
  end.

Definition solve (self : Captcha) (captcha_type page_url : option string)
    (force_enable force_debug : bool) : M (pyval * string) :=
  do! enter "solve" in
  let! url := gets current_url in
  let page_url := or_default page_url url in
  let captcha_type := or_default captcha_type "recaptcha_v2" in
  let debug_enabled_ := debug_enabled self || force_debug in
  if enabled self || force_enable then
    do! debug_if debug_enabled_
          (LogDebug ("Solving " +:+ upper captcha_type +:+ " for: " +:+ page_url)) in
    let! unpacked :=
      (if String.eqb (lower captcha_type) "recaptcha_v2" then
         let! triple := recaptcha_v2 self page_url debug_enabled_ in
         lift (unpack3 triple)
       else if String.eqb (lower captcha_type) "normal_captcha" then
         let! triple := normal_captcha self page_url debug_enabled_ in
         lift (unpack3 triple)
       else ret (VBool false, VStr "", VStr "")) in
    let '(success, status, msg) := unpacked in
    let status_msg := str status +:+ ": " +:+ str msg in
    do! (if truthy success
         then debug_if debug_enabled_ (LogTook false (upper captcha_type))
         else ret tt) in
    ret (success, status_msg)
  else
    do! debug_if debug_enabled_ (LogDebug ("Manually solving CAPTCHA for: " +:+ page_url)) in
    do! input "Press enter to proceed: " in
    do! (if save_solved_captchas (log self)
            && String.eqb (lower captcha_type) "normal_captcha"
         then
           let! captcha_input :=
             is_elem_present By_ID "ctl00_ContentPlaceHolder1_txtVerificationCode" in
           if truthy captcha_input then
             let! typed := get_attribute captcha_input "value" in
             let! _ := save_captcha self
                         (os_path_join "solved_captchas" (str typed +:+ ".jpeg")) in
             ret tt
           else ret tt
         else ret tt) in
    do! debug_if debug_enabled_ (LogTook true (upper captcha_type)) in
    ret (VBool true, "Manually solved CAPTCHA").

(** ** The Turnstile path *)

(** [needle in hay]. *)
Fixpoint contains (needle hay : string) : bool :=
  match strip_prefix needle hay with
  | Some _ => true
  | None =>
      match hay with
      | EmptyString => false
      | String _ rest => contains needle rest
      end
  end.

(** The lazy [.*?}] of the pattern: the text up to and including the first
    closing brace; [.] does not cross a line feed. *)
Fixpoint lazy_to_brace (s : string) : option string :=
  match s with
  | EmptyString => None
  | String c rest =>
      if Ascii.eqb c "}" then Some (String c EmptyString)
      else if (N_of_ascii c =? 10)%N then None
      else
        match lazy_to_brace rest with
        | Some body => Some (String c body)
        | None => None
        end
  end.

(** Group 1 of [re.search(r"intercepted-params:({.*?})", s)]. *)
Fixpoint re_search_params (s : string) : option string :=
  let here :=
    match strip_prefix "intercepted-params:{" s with
    | Some rest =>
        match lazy_to_brace rest with
        | Some body => Some ("{" +:+ body)
        | None => None
        end
    | None => None
    end in
  match here with
  | Some g => Some g
  | None =>
      match s with
      | EmptyString => None
      | String _ rest => re_search_params rest
      end
  end.

Definition intercept_script : string := " 
            console.clear = () => console.log('Console was cleared')
            const i = setInterval(()=>{
            if (window.turnstile)
            console.log('success!!')
            {clearInterval(i)
                window.turnstile.render = (a,b) => {
                let params = {
                        sitekey: b.sitekey,
                        pageurl: window.location.href,
                        data: b.cData,
                        pagedata: b.chlPageData,
                        action: b.action,
                        userAgent: navigator.userAgent,
                    }
                    console.log('intercepted-params:' + JSON.stringify(params))
                    window.cfCallback = b.callback
                    return        } 
            }
        },50)    
        ".

(** The names an instance of [Captcha] answers to: the attributes set by
    [__init__] and the functions of the class body. *)
Definition Captcha_attributes : list string :=
  ["solver"; "log"; "enabled"; "debug_enabled";
   "__init__"; "_solve_captcha"; "save_captcha"; "normal_captcha"; "recaptcha_v2";
   "get_captcha_params"; "cf_solver_captcha"; "send_token_callback";
   "cf_final_message"; "cloudflare_turnstile"; "solve"].

Section Turnstile.

(** The two library decoders [get_captcha_params] runs a log message
    through are taken as given: [bytes.decode("unicode_escape")] after
    [str.encode("utf-8")], and [json.loads]. *)
Variable unicode_escape : string -> outcome string.
Variable json_loads : string -> outcome pyval.

(** The [for] loop of [get_captcha_params], left at the first message that
    yields a match. *)
Fixpoint scan_logs (logs : list string) : outcome pyval :=
  match logs with
  | [] => Return VNone
  | message :: rest =>
      if contains "intercepted-params:" message then
        match unicode_escape message with
        | Raise e => Raise e
        | Return log_entry =>
            match re_search_params log_entry with
            | Some json_string => json_loads json_string
            | None => scan_logs rest
            end
        end
      else scan_logs rest
  end.

Definition get_captcha_params (self : Captcha) : M pyval :=
  do! enter "get_captcha_params" in
  do! refresh in
  do! execute_script intercept_script [] in
  do! time_sleep 5 in
  let! logs := get_log_browser in
  let! params := lift (scan_logs logs) in
  do! print "Parameters received" in
  ret params.

Definition cf_solver_captcha (self : Captcha) (params : pyval) (debug_enabled_ : bool)
    : M pyval :=
  do! enter "cf_solver_captcha" in
  fun w =>
    match
      (let! sitekey := lift (getitem params "sitekey") in
       let! url := lift (getitem params "pageurl") in
       let! action := lift (getitem params "action") in
       let! data := lift (getitem params "data") in
       let! pagedata := lift (getitem params "pagedata") in
       let! useragent := lift (getitem params "userAgent") in
       let! result := solver_turnstile sitekey url action data pagedata useragent in
       do! debug_if debug_enabled_ (LogDebug "Captcha solved") in
       lift (getitem result "code")) w
    with
    | (Return code, w1) => (Return code, w1)
    | (Raise e, w1) =>
        if is_Exception e then
          (do! print ("An error occurred: " +:+ str (VExc e)) in ret VNone) w1
        else (Raise e, w1)
    end.

Definition send_token_callback (self : Captcha) (token : pyval) : M unit :=
  do! enter "send_token_callback" in
  let script := "cfCallback('" +:+ str token +:+ "')" in
  do! execute_script script [] in
  print "The token is sent to the callback function".

Definition cf_final_message (self : Captcha) (locator : string) : M unit :=
  do! enter "cf_final_message" in
  let! message := wait_clickable_text locator in
  print message.

(** [self.<name>(driver)]: the attribute is looked up on the instance and
    called with the driver alone.  Of the names the instance answers to
    only [get_captcha_params] takes just a driver. *)
Definition call_with_driver (self : Captcha) (name : string) : M pyval :=
  if String.eqb name "get_captcha_params" then get_captcha_params self
  else if existsb (String.eqb name) Captcha_attributes
  then raise (Exn TypeError name)
  else raise (Exn AttributeError
                ("'Captcha' object has no attribute '" +:+ name +:+ "'")).

Definition cloudflare_turnstile (self : Captcha) (debug_enabled_ : bool) : M unit :=
  do! enter "cloudflare_turnstile" in
  let! params := call_with_driver self "get_capture_params" in
  if truthy params then
    let! token := cf_solver_captcha self params debug_enabled_ in
    if truthy token then
      (* send_token_callback(driver, token) is called with the token alone *)
      do! raise (A := unit)
            (Exn TypeError
               "send_token_callback() missing 1 required positional argument: 'token'") in
      do! cf_final_message self "//p[contains(@class,'successMessage')]" in
      time_sleep 5
    else print "Failed to solve Cloudflare turnstile"
  else print "Cloudflare turnstile: failed to intercept parameters".

End Turnstile.

(** ** Sample pages and instances *)

Module Sample.

Definition captcha_img (src : option string) : element :=
  Element
    (("id", "ctl00_ContentPlaceHolder1_CaptchaImg")
       :: match src with Some s => [("src", s)] | None => [] end)
    false.

Definition captcha_box (interactable : bool) : element :=
  Element [("id", "ctl00_ContentPlaceHolder1_txtVerificationCode")] interactable.

Definition recaptcha_widget : element :=
  Element [("class", "g-recaptcha"); ("data-sitekey", "6Lc_site-key")] false.

Definition recaptcha_response : element :=
  Element [("id", "g-recaptcha-response"); ("name", "g-recaptcha-response")] false.

Definition answer (code : string) : pyval :=
  VDict [("captchaId", VStr "2122988149"); ("code", VStr code)].

Definition answers (code : string) (req : solve_request) : outcome pyval :=
  Return (answer code).

Definition fails (e : exn) (req : solve_request) : outcome pyval := Raise e.

Definition browser (elements : list element) (svc : solve_request -> outcome pyval)
    : world :=
  World ∅ elements "https://www.cdc.com.sg/booking" [] 0 [] (fun _ => None)
        svc [] [] [] [] [] (fun _ => None).

Definition captcha (save enabled_ : bool) : Captcha :=
  {| solver_api_key := Some "key";
     log := {| save_solved_captchas := save |};
     enabled := enabled_;
     debug_enabled := true |}.

(** The page of the end-to-end scenario of the spec. *)
Definition image_page (interactable : bool) : world :=
  browser [captcha_img (Some "data:image/jpeg;base64,AAAA"); captcha_box interactable]
          (answers "AB12CD").

(** An image whose [src] leaves a single base64 character after the
    23-character prefix. *)
Definition broken_image_page : world :=
  browser [captcha_img (Some "data:image/jpeg;base64,A"); captcha_box true]
          (answers "AB12CD").

Definition recaptcha_page : world :=
  browser [recaptcha_widget; recaptcha_response] (answers "03AGdBq25-token").

Definition empty_page : world := browser [] (answers "AB12CD").

End Sample.

(** ** Vocabulary of the statements *)

Abbreviation img_id := "ctl00_ContentPlaceHolder1_CaptchaImg" (only parsing).
Abbreviation box_id := "ctl00_ContentPlaceHolder1_txtVerificationCode" (only parsing).
Abbreviation temp_path := "temp/normal_captcha.jpeg" (only parsing).

(** What [get_attribute("value")] gives for an element, and the path under
    which the manual path of [solve] archives the image for it. *)
Definition typed_value (box : element) : pyval :=
  match assoc "value" (el_attrs box) with
  | Some x => VStr x
  | None => VNone
  end.

Definition archive_path (box : element) : string :=
  os_path_join "solved_captchas" (str (typed_value box) +:+ ".jpeg").

(** The manual path may keep the typed value as a labelled image.  That
    step is skipped, or finds nothing to save, or has an image it can
    decode and a file it can create for it, in the cases listed here. *)
Definition archive_is_skipped_or_storable (self : Captcha) (kind : string) (w : world)
    : Prop :=
  save_solved_captchas (log self) = false \/
  lower kind <> "normal_captcha" \/
  locate By_ID box_id w = None \/
  locate By_ID img_id w = None \/
  exists i img s image j box,
    locate By_ID img_id w = Some i /\ page w !! i = Some img /\
    assoc "src" (el_attrs img) = Some s /\
    decodebytes (encode (drop_chars 23 s)) = Return image /\
    locate By_ID box_id w = Some j /\ page w !! j = Some box /\
    os_error (open_error w) (archive_path box) = None.

(** A computation extends the call trace by method names from [allowed]
    only. *)
Definition traced {A : Type} (allowed : list string) (m : M A) : Prop :=
  forall w, exists l,
    calls (snd (m w)) = calls w ++ l /\ Forall (fun n => In n allowed) l.

(** The methods [solve] can reach. *)
Definition solve_methods : list string :=
  ["solve"; "recaptcha_v2"; "normal_captcha"; "save_captcha"; "_solve_captcha"].


(** A computation leaves the observation [f] of the world as it found it. *)
Definition keeps {A X : Type} (f : world -> X) (m : M A) : Prop :=
  forall w, f (snd (m w)) = f w.

(** A computation appends at most [n] entries to the list [f] of the world
    and changes none that were there. *)
Definition grows {A X : Type} (f : world -> list X) (n : nat) (m : M A) : Prop :=
  forall w, exists l, f (snd (m w)) = f w ++ l /\ (length l <= n)%nat.

(** The same instance with another [enabled] or [debug_enabled] attribute. *)
Definition with_enabled (b : bool) (self : Captcha) : Captcha :=
  {| solver_api_key := solver_api_key self;
     log := log self;
     enabled := b;
     debug_enabled := debug_enabled self |}.

Definition with_debug_enabled (b : bool) (self : Captcha) : Captcha :=
  {| solver_api_key := solver_api_key self;
     log := log self;
     enabled := enabled self;
     debug_enabled := b |}.

(** [s.endswith(suffix)]. *)
Fixpoint ends_with (suffix s : string) : bool :=
  String.eqb s suffix ||
  match s with
  | EmptyString => false
  | String _ rest => ends_with suffix rest
  end.

(** The keyword arguments [cf_solver_captcha] reads from the parameters. *)
Definition turnstile_keys : list string :=
  ["sitekey"; "pageurl"; "action"; "data"; "pagedata"; "userAgent"].

(** Further pages for the statements about single methods. *)
Module Scenario.

Definition typed_box (typed : string) : element :=
  Element [("id", "ctl00_ContentPlaceHolder1_txtVerificationCode"); ("value", typed)]
          true.

(** A reCAPTCHA widget without the hidden response field. *)
Definition widget_only_page : world :=
  Sample.browser [Sample.recaptcha_widget] (Sample.answers "03AGdBq25-token").

(** The image element carries no [src] attribute. *)
Definition no_src_page : world :=
  Sample.browser [Sample.captcha_img None; Sample.captcha_box true]
                 (Sample.answers "AB12CD").

(** The image's [src] is a relative URL of fewer than 23 characters. *)
Definition short_src_page : world :=
  Sample.browser [Sample.captcha_img (Some "/captcha.jpg"); Sample.captcha_box true]
                 (Sample.answers "AB12CD").

Definition failing_page (e : exn) : world :=
  Sample.browser [Sample.captcha_img (Some "data:image/jpeg;base64,AAAA");
                  Sample.captcha_box true]
                 (Sample.fails e).


(** The operator has typed the text into the input field. *)
Definition typed_page (typed : string) : world :=
  Sample.browser [Sample.captcha_img (Some "data:image/jpeg;base64,AAAA");
                  typed_box typed]
                 (Sample.answers "AB12CD").

Definition turnstile_params : pyval :=
  VDict [("sitekey", VStr "0x4AAAAAAA"); ("pageurl", VStr "https://www.cdc.com.sg/");
         ("data", VStr "cdata"); ("pagedata", VStr "chl"); ("action", VStr "login");
         ("userAgent", VStr "Mozilla/5.0")].

Definition logging_page (messages : list string) : world :=
  World ∅ [] "https://www.cdc.com.sg/booking" [] 0 messages (fun _ => None)
        (Sample.answers "token") [] [] [] [] [] (fun _ => None).

(** A machine on which only the application's two directories can be
    written to: creating a file anywhere else fails. *)
Definition no_such_directory (path : string) : option exn :=
  Some (Exn FileNotFoundError path).

Definition confined (w : world) : world :=
  World (fs w) (page w) (current_url w) (js_calls w) (refreshes w) (browser_log w)
        (xpath_text w) (service w) (requests w) (log_lines w) (stdout w)
        (prompts w) (calls w) no_such_directory.

End Scenario.

(** * Properties *)

(** ** The library models on known inputs *)

Example decodebytes_AAAA : decodebytes (encode "AAAA") = Return [0; 0; 0].
Proof. reflexivity. Qed.

Example decodebytes_hello : decodebytes (encode "aGVsbG8=") = Return [104; 101; 108; 108; 111].
Proof. reflexivity. Qed.

Example decodebytes_one_char : decodebytes (encode "A") =
  Raise (Exn binascii_Error "Invalid base64-encoded string").
Proof. reflexivity. Qed.

Example decodebytes_short_quad : decodebytes (encode "AAA") =
  Raise (Exn binascii_Error "Incorrect padding").
Proof. reflexivity. Qed.

Example data_uri_prefix_length : String.length "data:image/jpeg;base64," = 23%nat.
Proof. reflexivity. Qed.

Example decodebytes_pad_inside : decodebytes (encode "AA=A") =
  Raise (Exn binascii_Error "Incorrect padding").
Proof. reflexivity. Qed.

Example decodebytes_stops_at_pad : decodebytes (encode "AAA=AAAA") = Return [0; 0].
Proof. reflexivity. Qed.

Example decodebytes_skips_foreign : decodebytes (encode "AA=@=") = Return [0].
Proof. reflexivity. Qed.

Example os_path_join_temp :
  os_path_join "temp" "normal_captcha.jpeg" = "temp/normal_captcha.jpeg".
Proof. reflexivity. Qed.

Example os_path_join_absolute : os_path_join "solved_captchas" "/x.jpeg" = "/x.jpeg".
Proof. reflexivity. Qed.

Example unpack3_two_key_dict :
  unpack3 (Sample.answer "AB12CD") = Raise (Exn ValueError "unpack").
Proof. reflexivity. Qed.

Example unpack3_None :
  unpack3 VNone = Raise (Exn TypeError "cannot unpack non-iterable object").
Proof. reflexivity. Qed.

Example lower_mixed_case : lower "ReCaptcha_V2" = "recaptcha_v2".
Proof. reflexivity. Qed.

Example re_search_params_finds_first_object :
  re_search_params "x intercepted-params:{a:1} then {b}" = Some "{a:1}".
Proof. reflexivity. Qed.

(** ** Log lines only *)

Lemma emit_adds_lines (l : log_line) (w : world) :
  emit l w = set_log_lines (log_lines w ++ [l]) w.
Proof. reflexivity. Qed.

Lemma set_log_lines_twice (a b : list log_line) (w : world) :
  set_log_lines b (set_log_lines a w) = set_log_lines b w.
Proof. reflexivity. Qed.

Lemma logged_adds_lines (b : bool) (l : log_line) (w : world) :
  exists lines, logged b l w = set_log_lines (log_lines w ++ lines) w.
Proof.
  destruct b; [exists [l] | exists []]; [reflexivity|].
  destruct w; cbn. rewrite app_nil_r. reflexivity.
Qed.

Lemma logged_logged_adds_lines (b b' : bool) (l l' : log_line) (w : world) :
  exists lines,
    logged b l (logged b' l' w) = set_log_lines (log_lines w ++ lines) w.
Proof.
  destruct (logged_adds_lines b' l' w) as [l1 H1]. rewrite H1.
  destruct (logged_adds_lines b l (set_log_lines (log_lines w ++ l1) w)) as [l2 H2].
  rewrite H2. exists (l1 ++ l2). destruct w; cbn. rewrite app_assoc. reflexivity.
Qed.

Lemma logged_emit_emit_adds_lines (b : bool) (l l1 l2 : log_line) (w : world) :
  exists lines,
    logged b l (emit l1 (emit l2 w)) = set_log_lines (log_lines w ++ lines) w.
Proof.
  destruct (logged_adds_lines b l (emit l1 (emit l2 w))) as [k Hk]. rewrite Hk.
  exists ([l2; l1] ++ k). destruct w; cbn.
  rewrite <- !app_assoc. reflexivity.
Qed.

(** ** The unified wrapper [_solve_captcha] *)

Section Wrapper.

Variable self : Captcha.
Variable solve_callback : M pyval.
Variable result_callback : pyval -> M unit.
Variable debug_enabled_ : bool.

(** The unfolding of the wrapper at a world where the solve callback
    raises: which handler runs is decided by the class tests, in order. *)
Lemma _solve_captcha_raised (w w1 : world) (e : exn) :
  solve_callback (entered "_solve_captcha" w) = (Raise e, w1) ->
  _solve_captcha self solve_callback result_callback debug_enabled_ w =
    if is_TimeoutException e then
      (Return (VTuple [VBool false; VStr "TIMEOUT"; VExc e]),
       logged debug_enabled_
         (LogDebugValue (VTuple [VBool false; VStr "TIMEOUT"; VExc e]))
         (logged debug_enabled_
            (LogDebug ("2Captcha API has timed-out! : " +:+ exc_args e)) w1))
    else if is_NetworkException e then
      (Return (VTuple [VBool false; VStr "NETWORK_ERROR"; VExc e]),
       logged debug_enabled_
         (LogDebugValue (VTuple [VBool false; VStr "NETWORK_ERROR"; VExc e]))
         (logged debug_enabled_
            (LogDebug ("2Captcha API has encountered a network error! : "
                       +:+ exc_args e)) w1))
    else if is_ApiException e then
      (Return (VTuple [VBool false; VStr "API_ERROR"; VExc e]),
       logged debug_enabled_
         (LogDebugValue (VTuple [VBool false; VStr "API_ERROR"; VExc e]))
         (logged debug_enabled_
            (LogDebug ("2Captcha API has encountered an API error : "
                       +:+ exc_args e)) w1))
    else if is_Exception e then
      (Return (VTuple [VBool false; VStr "UNKNOWN_ERROR"; VExc e]),
       logged debug_enabled_
         (LogDebugValue (VTuple [VBool false; VStr "UNKNOWN_ERROR"; VExc e]))
         (emit (LogTraceback e) (emit (LogError (exc_args e)) w1)))
    else (Return VNone, logged debug_enabled_ (LogDebugValue VNone) w1).
Proof.
  intros Hcb.
  unfold _solve_captcha, bind, enter, modify. rewrite Hcb.
  destruct (is_TimeoutException e); [reflexivity|].
  destruct (is_NetworkException e); [reflexivity|].
  destruct (is_ApiException e); [reflexivity|].
  destruct (is_Exception e); reflexivity.
Qed.

(** The unfolding of the wrapper at a world where the solve callback
    returns: the apply step runs next, after the debug line. *)
Lemma _solve_captcha_returned (w w1 : world) (result : pyval) :
  solve_callback (entered "_solve_captcha" w) = (Return result, w1) ->
  _solve_captcha self solve_callback result_callback debug_enabled_ w =
    match
      result_callback result
        (logged debug_enabled_ (LogDebug "Received 2Captcha response...") w1)
    with
    | (Return _, w3) =>
        (Return (VTuple [VBool true; VStr "SOLVED"; result]),
         logged debug_enabled_
           (LogDebugValue (VTuple [VBool true; VStr "SOLVED"; result])) w3)
    | (Raise _, w3) =>
        (Return result, logged debug_enabled_ (LogDebugValue result) w3)
    end.
Proof.
  intros Hcb.
  unfold _solve_captcha, bind, enter, modify. rewrite Hcb. simpl.
  destruct (result_callback result _) as [[u|e'] w3]; reflexivity.
Qed.

(** The wrapper never raises, whatever the two callbacks do. *)
Lemma _solve_captcha_returns (w : world) :
  exists v w', _solve_captcha self solve_callback result_callback debug_enabled_ w
               = (Return v, w').
Proof.
  destruct (solve_callback (entered "_solve_captcha" w)) as [[r|e] w1] eqn:Hcb.
  - rewrite (_solve_captcha_returned _ _ _ Hcb).
    destruct (result_callback r _) as [[u|e'] w3]; eauto.
  - rewrite (_solve_captcha_raised _ _ _ Hcb).
    destruct (is_TimeoutException e); [eauto|].
    destruct (is_NetworkException e); [eauto|].
    destruct (is_ApiException e); [eauto|].
    destruct (is_Exception e); eauto.
Qed.

End Wrapper.

(** C1, amended.  When the solve callback raises, the wrapper returns
    normally: an exception of class [TimeoutException], [NetworkException]
    or [ApiException] gives [(False, "TIMEOUT", e)], [(False,
    "NETWORK_ERROR", e)] or [(False, "API_ERROR", e)], any other exception
    derived from [Exception] gives [(False, "UNKNOWN_ERROR", e)], each with
    the exception object as third component; an exception outside
    [Exception] ([KeyboardInterrupt], [SystemExit]) is caught by no clause
    and the wrapper returns [None] for it; nothing the callback raises
    reaches the caller, and the apply step is not run (only log lines are
    added). *)
Theorem solve_callback_exception_is_mapped
    (self : Captcha) (solve_callback : M pyval) (result_callback : pyval -> M unit)
    (debug_enabled_ : bool) (w w1 : world) (e : exn) :
  solve_callback (entered "_solve_captcha" w) = (Raise e, w1) ->
  let run := _solve_captcha self solve_callback result_callback debug_enabled_ w in
  (exists v, fst run = Return v) /\
  (exc_type e = TimeoutException ->
     fst run = Return (VTuple [VBool false; VStr "TIMEOUT"; VExc e])) /\
  (exc_type e = NetworkException ->
     fst run = Return (VTuple [VBool false; VStr "NETWORK_ERROR"; VExc e])) /\
  (exc_type e = ApiException ->
     fst run = Return (VTuple [VBool false; VStr "API_ERROR"; VExc e])) /\
  (is_Exception e = true ->
   exc_type e <> TimeoutException -> exc_type e <> NetworkException ->
   exc_type e <> ApiException ->
     fst run = Return (VTuple [VBool false; VStr "UNKNOWN_ERROR"; VExc e])) /\
  (is_Exception e = false -> fst run = Return VNone) /\
  (exists lines,
     snd run = set_log_lines (log_lines w1 ++ lines) w1).
Proof.
  intros Hcb run. subst run.
  rewrite (_solve_captcha_raised self _ result_callback debug_enabled_ _ _ _ Hcb).
  unfold is_TimeoutException, is_NetworkException, is_ApiException, is_Exception.
  pose proof logged_adds_lines as Hlog.
  pose proof logged_logged_adds_lines as Hlog2.
  pose proof logged_emit_emit_adds_lines as Hlog3.
  destruct e as [c args]; cbn [exc_type exc_args].
  destruct c; cbn [fst snd];
    (split; [eexists; reflexivity|]);
    (split; [intros; first [reflexivity | discriminate]|]);
    (split; [intros; first [reflexivity | discriminate]|]);
    (split; [intros; first [reflexivity | discriminate]|]);
    (split; [intros; first [reflexivity | discriminate | congruence]|]);
    (split; [intros; first [reflexivity | discriminate]|]);
    auto.
Qed.

Lemma solve_callback_exception_is_mapped_witness :
  let w := Sample.browser [] (Sample.fails (Exn TimeoutException "timeout")) in
  let e := Exn TimeoutException "timeout" in
  let solve_callback := solver_recaptcha (VStr "6Lc_site-key") "https://www.cdc.com.sg/booking" in
  let w1 := snd (solve_callback (entered "_solve_captcha" w)) in
  solve_callback (entered "_solve_captcha" w) = (Raise e, w1) /\
  fst (_solve_captcha (Sample.captcha false true) solve_callback
         submit_captcha_response true w)
  = Return (VTuple [VBool false; VStr "TIMEOUT"; VExc e]).
Proof.
  intros w e solve_callback w1.
  assert (H : solve_callback (entered "_solve_captcha" w) = (Raise e, w1)) by reflexivity.
  split; [exact H|].
  exact (proj1 (proj2 (solve_callback_exception_is_mapped
                         (Sample.captcha false true) solve_callback
                         submit_captcha_response true w w1 e H))
               eq_refl).
Defined.

(** C1 as stated fails: a solve callback interrupted from the keyboard
    raises [KeyboardInterrupt], which is no [Exception]; no clause maps it,
    and the wrapper returns [None] instead of a triple with
    [success = False], a status tag and the exception. *)
Lemma keyboard_interrupt_is_not_mapped :
  let e := Exn KeyboardInterrupt "" in
  let w := Sample.browser [] (Sample.fails e) in
  let solve_callback := solver_recaptcha (VStr "6Lc_site-key") "https://www.cdc.com.sg/booking" in
  let run := _solve_captcha (Sample.captcha false true) solve_callback
               submit_captcha_response true w in
  fst (solve_callback (entered "_solve_captcha" w)) = Raise e /\
  fst run = Return VNone /\
  ~ (exists status, fst run = Return (VTuple [VBool false; VStr status; VExc e])).
Proof.
  cbv zeta. split; [reflexivity|]. split; [reflexivity|].
  intros [status H]. discriminate H.
Qed.

(** C9. When the solve callback returns a value and the apply callback then
    raises, the [return] in the [finally] clause discards that exception and
    the wrapper returns the solver's raw value, not a triple; the triple
    [(True, "SOLVED", value)] is returned only when the apply callback
    returns. *)
Theorem apply_exception_is_swallowed
    (self : Captcha) (solve_callback : M pyval) (result_callback : pyval -> M unit)
    (debug_enabled_ : bool) (w w1 : world) (result : pyval) :
  solve_callback (entered "_solve_captcha" w) = (Return result, w1) ->
  let w2 := logged debug_enabled_ (LogDebug "Received 2Captcha response...") w1 in
  (forall e w3,
     result_callback result w2 = (Raise e, w3) ->
     _solve_captcha self solve_callback result_callback debug_enabled_ w
     = (Return result, logged debug_enabled_ (LogDebugValue result) w3)) /\
  (forall u w3,
     result_callback result w2 = (Return u, w3) ->
     _solve_captcha self solve_callback result_callback debug_enabled_ w
     = (Return (VTuple [VBool true; VStr "SOLVED"; result]),
        logged debug_enabled_
          (LogDebugValue (VTuple [VBool true; VStr "SOLVED"; result])) w3)).
Proof.
  intros Hcb w2. subst w2.
  rewrite (_solve_captcha_returned self _ result_callback debug_enabled_ _ _ _ Hcb).
  split; intros ? w3 Hrc; rewrite Hrc; reflexivity.
Qed.

Lemma apply_exception_is_swallowed_witness :
  let w := set_fs {[ "temp/normal_captcha.jpeg" := [0; 0; 0] ]} (Sample.image_page false) in
  let solve_callback := solver_normal "temp/normal_captcha.jpeg" 1 6 6 in
  let result_callback := fun result =>
    bind (lift (getitem result "code")) (fun code => send_keys (VElem 1) (str code)) in
  let w1 := snd (solve_callback (entered "_solve_captcha" w)) in
  let w3 := logged true (LogDebug "Received 2Captcha response...") w1 in
  solve_callback (entered "_solve_captcha" w) = (Return (Sample.answer "AB12CD"), w1) /\
  result_callback (Sample.answer "AB12CD") w3
    = (Raise (Exn ElementNotInteractableException "send_keys"), w3) /\
  _solve_captcha (Sample.captcha false true) solve_callback result_callback true w
    = (Return (Sample.answer "AB12CD"),
       logged true (LogDebugValue (Sample.answer "AB12CD")) w3).
Proof.
  intros w solve_callback result_callback w1 w3.
  assert (H : solve_callback (entered "_solve_captcha" w)
              = (Return (Sample.answer "AB12CD"), w1)) by reflexivity.
  assert (H' : result_callback (Sample.answer "AB12CD") w3
               = (Raise (Exn ElementNotInteractableException "send_keys"), w3))
    by reflexivity.
  split; [exact H|]. split; [exact H'|].
  exact (proj1 (apply_exception_is_swallowed (Sample.captcha false true)
                  solve_callback result_callback true w w1 (Sample.answer "AB12CD") H)
               _ _ H').
Defined.

(** ** Looking elements up *)

Lemma first_index_none {A : Type} (p : A -> bool) (l : list A) (i : nat) :
  Forall (fun x => p x = false) l -> first_index p l i = None.
Proof.
  intros H. revert i. induction H as [|x l Hx _ IH]; intros i; cbn; [reflexivity|].
  rewrite Hx. apply IH.
Qed.

Lemma locate_none (by_ : By) (value : string) (w : world) :
  Forall (fun el => matches by_ value el = false) (page w) ->
  locate by_ value w = None.
Proof. apply first_index_none. Qed.

Lemma locate_entered (by_ : By) (value name : string) (w : world) :
  locate by_ value (entered name w) = locate by_ value w.
Proof. reflexivity. Qed.

(** ** [save_captcha] *)


Lemma is_elem_present_run (by_ : By) (value : string) (w : world) :
  is_elem_present by_ value w
  = (Return (match locate by_ value w with Some i => VElem i | None => VNone end), w).
Proof. unfold is_elem_present. destruct (locate by_ value w); reflexivity. Qed.

Lemma save_captcha_absent (self : Captcha) (path : string) (w : world) :
  locate By_ID img_id w = None \/ locate By_ID box_id w = None ->
  save_captcha self path w = (Return (VBool false), entered "save_captcha" w).
Proof.
  intros H.
  unfold save_captcha, bind, enter, modify. cbn beta iota.
  rewrite !is_elem_present_run, !locate_entered. cbn beta iota.
  destruct H as [H|H]; rewrite H.
  - destruct (locate By_ID box_id w); reflexivity.
  - destruct (locate By_ID img_id w); reflexivity.
Qed.

(** C2. When the image CAPTCHA markup is absent (no element with the image
    id, or none with the input id), [normal_captcha] returns [(False, "NO
    CAPTCHA FOUND IN", page_url)]; when no element carries a [data-sitekey]
    attribute, [recaptcha_v2] returns [(False, "NO RECAPTCHA_V2 FOUND IN",
    page_url)].  Both are ordinary returns naming the page URL, not raised
    exceptions, and nothing but the call trace changes. *)
Theorem markup_absent_is_an_ordinary_result
    (self : Captcha) (page_url : string) (debug_enabled_ : bool) (w : world) :
  (Forall (fun el => attr_is "id" img_id el = false) (page w) \/
   Forall (fun el => attr_is "id" box_id el = false) (page w) ->
   normal_captcha self page_url debug_enabled_ w
   = (Return (VTuple [VBool false; VStr "NO CAPTCHA FOUND IN"; VStr page_url]),
      entered "save_captcha" (entered "normal_captcha" w))) /\
  (Forall (fun el => has_attr "data-sitekey" el = false) (page w) ->
   recaptcha_v2 self page_url debug_enabled_ w
   = (Return (VTuple [VBool false; VStr "NO RECAPTCHA_V2 FOUND IN"; VStr page_url]),
      entered "recaptcha_v2" w)).
Proof.
  split.
  - intros H.
    assert (Habs : locate By_ID img_id (entered "normal_captcha" w) = None \/
                   locate By_ID box_id (entered "normal_captcha" w) = None).
    { rewrite !locate_entered.
      destruct H as [H|H]; [left|right]; apply locate_none; exact H. }
    unfold normal_captcha, bind, enter, modify.
    rewrite (save_captcha_absent self _ _ Habs). reflexivity.
  - intros H.
    unfold recaptcha_v2, bind, enter, modify, is_elem_present.
    rewrite locate_entered, (locate_none By_CSS_SELECTOR "[data-sitekey]" w H).
    reflexivity.
Qed.

Lemma markup_absent_is_an_ordinary_result_witness :
  let w := Sample.empty_page in
  let url := "https://www.cdc.com.sg/booking" in
  (Forall (fun el => attr_is "id" img_id el = false) (page w) \/
   Forall (fun el => attr_is "id" box_id el = false) (page w)) /\
  Forall (fun el => has_attr "data-sitekey" el = false) (page w) /\
  normal_captcha (Sample.captcha true true) url true w
   = (Return (VTuple [VBool false; VStr "NO CAPTCHA FOUND IN"; VStr url]),
      entered "save_captcha" (entered "normal_captcha" w)) /\
  recaptcha_v2 (Sample.captcha true true) url true w
   = (Return (VTuple [VBool false; VStr "NO RECAPTCHA_V2 FOUND IN"; VStr url]),
      entered "recaptcha_v2" w).
Proof.
  intros w url.
  assert (H1 : Forall (fun el => attr_is "id" img_id el = false) (page w) \/
               Forall (fun el => attr_is "id" box_id el = false) (page w))
    by (left; constructor).
  assert (H2 : Forall (fun el => has_attr "data-sitekey" el = false) (page w))
    by constructor.
  split; [exact H1|]. split; [exact H2|].
  destruct (markup_absent_is_an_ordinary_result (Sample.captcha true true) url true w)
    as [Hn Hr].
  split; [exact (Hn H1) | exact (Hr H2)].
Defined.

(** ** Projections through the log *)

Lemma fs_logged b l w : fs (logged b l w) = fs w.
Proof. destruct b; reflexivity. Qed.
Lemma page_logged b l w : page (logged b l w) = page w.
Proof. destruct b; reflexivity. Qed.
Lemma service_logged b l w : service (logged b l w) = service w.
Proof. destruct b; reflexivity. Qed.
Lemma requests_logged b l w : requests (logged b l w) = requests w.
Proof. destruct b; reflexivity. Qed.
Lemma js_calls_logged b l w : js_calls (logged b l w) = js_calls w.
Proof. destruct b; reflexivity. Qed.
Lemma calls_logged b l w : calls (logged b l w) = calls w.
Proof. destruct b; reflexivity. Qed.
Lemma prompts_logged b l w : prompts (logged b l w) = prompts w.
Proof. destruct b; reflexivity. Qed.
Lemma open_error_logged b l w : open_error (logged b l w) = open_error w.
Proof. destruct b; reflexivity. Qed.

Create Rewrite HintDb world.
#[local] Hint Rewrite fs_logged page_logged service_logged requests_logged
  js_calls_logged calls_logged prompts_logged open_error_logged : world.

Ltac wsimpl :=
  repeat (progress
    (cbn [fs page current_url js_calls refreshes browser_log xpath_text service
          requests log_lines stdout prompts calls open_error
          set_fs set_page set_js_calls set_refreshes set_requests set_log_lines
          set_stdout set_prompts set_calls entered emit fst snd];
     autorewrite with world)).

Lemma save_captcha_present (self : Captcha) (path : string) (w : world)
    (i j : nat) (el : element) :
  locate By_ID img_id w = Some i ->
  locate By_ID box_id w = Some j ->
  page w !! i = Some el ->
  save_captcha self path w =
    match assoc "src" (el_attrs el) with
    | None => (Raise (Exn TypeError "object is not subscriptable"),
               entered "save_captcha" w)
    | Some s =>
        match os_error (open_error w) path with
        | Some e => (Raise e, entered "save_captcha" w)
        | None =>
            match decodebytes (encode (drop_chars 23 s)) with
            | Return image =>
                (Return (VElem j),
                 set_fs (<[path := image]> (<[path := []]> (fs w)))
                        (entered "save_captcha" w))
            | Raise e =>
                (Raise e, set_fs (<[path := []]> (fs w)) (entered "save_captcha" w))
            end
        end
    end.
Proof.
  intros Hi Hj Hel.
  unfold save_captcha, bind, enter, modify. cbn beta iota.
  rewrite !is_elem_present_run, !locate_entered. cbn beta iota.
  rewrite Hi, Hj. cbn [truthy andb].
  unfold get_attribute. wsimpl. rewrite Hel.
  destruct (assoc "src" (el_attrs el)) as [s|]; [|reflexivity].
  cbn [lift slice_from]. unfold open_wb, file_write, modify, lift. wsimpl.
  destruct (os_error (open_error w) path); [reflexivity|].
  destruct (decodebytes (encode (drop_chars 23 s))); reflexivity.
Qed.

Lemma os_error_temp (refused : string -> option exn) :
  os_error refused temp_path = None.
Proof. reflexivity. Qed.

Lemma os_error_temp_join (refused : string -> option exn) :
  os_error refused (os_path_join "temp" "normal_captcha.jpeg") = None.
Proof. reflexivity. Qed.


Lemma normal_captcha_solved (self : Captcha) (page_url : string) (debug_enabled_ : bool)
    (w : world) (i j : nat) (img box : element) (s : string) (image : list Z)
    (result code : pyval) :
  locate By_ID img_id w = Some i -> page w !! i = Some img ->
  assoc "src" (el_attrs img) = Some s ->
  decodebytes (encode (drop_chars 23 s)) = Return image ->
  locate By_ID box_id w = Some j -> page w !! j = Some box ->
  el_interactable box = true ->
  service w (ReqNormal image 1 6 6) = Return result ->
  getitem result "code" = Return code ->
  (save_solved_captchas (log self) = true ->
   os_error (open_error w) (os_path_join "solved_captchas" (str code +:+ ".jpeg"))
   = None) ->
  exists w',
    normal_captcha self page_url debug_enabled_ w
    = (Return (VTuple [VBool true; VStr "SOLVED"; result]), w') /\
    requests w' = requests w ++ [ReqNormal image 1 6 6] /\
    page w' = <[j := type_into box (str code)]> (page w) /\
    js_calls w' = js_calls w /\
    fs w' =
      if save_solved_captchas (log self)
      then <[os_path_join "solved_captchas" (str code +:+ ".jpeg") := image]>
             (delete temp_path (fs w))
      else delete temp_path (fs w).
Proof.
  intros Hi Himg Hsrc Hdec Hj Hbox Hok Hsvc Hcode Hdst.
  unfold normal_captcha, bind, enter, modify. cbn beta iota.
  rewrite (save_captcha_present self _ (entered "normal_captcha" w) i j img Hi Hj Himg).
  rewrite Hsrc, os_error_temp_join, Hdec. cbn [truthy].
  set (w1 := set_fs _ _).
  assert (Hcb : solver_normal (os_path_join "temp" "normal_captcha.jpeg") 1 6 6
                  (entered "_solve_captcha" w1)
                = (Return result,
                   set_requests (requests w ++ [ReqNormal image 1 6 6])
                                (entered "_solve_captcha" w1))).
  { unfold solver_normal, submit. subst w1. wsimpl.
    change (os_path_join "temp" "normal_captcha.jpeg") with temp_path.
    rewrite lookup_insert_eq. wsimpl. rewrite Hsvc. reflexivity. }
  rewrite (_solve_captcha_returned self _ _ debug_enabled_ _ _ _ Hcb).
  cbn beta iota. unfold lift at 1. rewrite Hcode.
  unfold send_keys. wsimpl. subst w1. wsimpl. rewrite Hbox, Hok.
  cbn [lift unpack3 iter_items truthy eq_str]. cbn beta iota.
  replace (String.eqb "SOLVED" "SOLVED") with true by reflexivity.
  rewrite andb_true_r.
  change (os_path_join "temp" "normal_captcha.jpeg") with temp_path.
  destruct (save_solved_captchas (log self)); cbn [andb].
  - unfold lift. rewrite Hcode. unfold os_rename. wsimpl.
    rewrite lookup_insert_eq, (Hdst eq_refl). cbn [ret].
    eexists; split; [reflexivity|]. wsimpl.
    repeat split; try reflexivity.
    rewrite insert_insert_eq, delete_insert_eq. reflexivity.
  - unfold remove_files, modify, ret. cbn [foldr].
    eexists; split; [reflexivity|]. wsimpl.
    repeat split; try reflexivity.
    rewrite insert_insert_eq, delete_insert_eq. reflexivity.
Qed.


Lemma assoc_set_assoc (k v : string) (kv : list (string * string)) :
  assoc k (set_assoc k v kv) = Some v.
Proof.
  induction kv as [|[k' v'] rest IH]; cbn.
  - rewrite String.eqb_refl. reflexivity.
  - destruct (String.eqb k k') eqn:E; cbn.
    + rewrite String.eqb_refl. reflexivity.
    + rewrite E. exact IH.
Qed.

Lemma value_of_type_into (e : element) (text : string) :
  value_of (type_into e text) = value_of e +:+ text.
Proof. unfold value_of at 1, type_into. cbn [el_attrs]. rewrite assoc_set_assoc. reflexivity. Qed.

(** C3. The end-to-end scenario.  On a page whose image element has
    [src="data:image/jpeg;base64,AAAA"] and whose input element is present
    (and accepts typing), the image path writes the decoded payload, the
    three zero bytes, to the temp file; the solver is called with that
    payload and [caseSensitive=1], [minLength=6], [maxLength=6]; on an
    answer whose code is ["AB12CD"] that text is typed into the input
    element, and with archival enabled the image ends up at
    [solved_captchas/AB12CD.jpeg] and no longer at the temp path. *)
Theorem image_captcha_end_to_end
    (self : Captcha) (page_url : string) (debug_enabled_ : bool) (w : world)
    (i j : nat) (img box : element) (result : pyval) :
  locate By_ID img_id w = Some i -> page w !! i = Some img ->
  assoc "src" (el_attrs img) = Some "data:image/jpeg;base64,AAAA" ->
  locate By_ID box_id w = Some j -> page w !! j = Some box ->
  el_interactable box = true ->
  service w (ReqNormal [0; 0; 0] 1 6 6) = Return result ->
  getitem result "code" = Return (VStr "AB12CD") ->
  (exists w0,
     save_captcha self temp_path (entered "normal_captcha" w) = (Return (VElem j), w0) /\
     fs w0 !! temp_path = Some [0; 0; 0]) /\
  (exists w',
     normal_captcha self page_url debug_enabled_ w
     = (Return (VTuple [VBool true; VStr "SOLVED"; result]), w') /\
     requests w' = requests w ++ [ReqNormal [0; 0; 0] 1 6 6] /\
     page w' !! j = Some (type_into box "AB12CD") /\
     value_of (type_into box "AB12CD") = value_of box +:+ "AB12CD" /\
     (save_solved_captchas (log self) = true ->
      fs w' !! "solved_captchas/AB12CD.jpeg" = Some [0; 0; 0] /\
      fs w' !! temp_path = None)).
Proof.
  intros Hi Himg Hsrc Hj Hbox Hok Hsvc Hcode.
  assert (Hdec : decodebytes (encode (drop_chars 23 "data:image/jpeg;base64,AAAA"))
                 = Return [0; 0; 0]) by reflexivity.
  split.
  - rewrite (save_captcha_present self _ (entered "normal_captcha" w) i j img Hi Hj Himg).
    rewrite Hsrc, os_error_temp, Hdec. eexists; split; [reflexivity|].
    wsimpl. apply lookup_insert_eq.
  - destruct (normal_captcha_solved self page_url debug_enabled_ w i j img box _ _ _ _
                Hi Himg Hsrc Hdec Hj Hbox Hok Hsvc Hcode (fun _ => eq_refl))
      as (w' & Hrun & Hreq & Hpage & _ & Hfs).
    exists w'. split; [exact Hrun|]. split; [exact Hreq|].
    split.
    { rewrite Hpage. apply list_lookup_insert_eq. eapply lookup_lt_Some; exact Hbox. }
    split; [apply value_of_type_into|].
    intros Hsave. rewrite Hfs, Hsave.
    change (os_path_join "solved_captchas" (str (VStr "AB12CD") +:+ ".jpeg"))
      with "solved_captchas/AB12CD.jpeg".
    split; [apply lookup_insert_eq|].
    rewrite lookup_insert_ne by discriminate. apply lookup_delete_eq.
Qed.

Lemma image_captcha_end_to_end_witness :
  let w := Sample.image_page true in
  let self := Sample.captcha true true in
  exists w',
    normal_captcha self "https://www.cdc.com.sg/booking" true w
    = (Return (VTuple [VBool true; VStr "SOLVED"; Sample.answer "AB12CD"]), w') /\
    fs w' !! "solved_captchas/AB12CD.jpeg" = Some [0; 0; 0] /\
    fs w' !! temp_path = None.
Proof.
  intros w self.
  destruct (image_captcha_end_to_end self "https://www.cdc.com.sg/booking" true w
              0 1 (Sample.captcha_img (Some "data:image/jpeg;base64,AAAA"))
              (Sample.captcha_box true) (Sample.answer "AB12CD")
              eq_refl eq_refl eq_refl eq_refl eq_refl eq_refl eq_refl eq_refl)
    as [_ (w' & Hrun & _ & _ & _ & Hfs)].
  exists w'. split; [exact Hrun|]. exact (Hfs eq_refl).
Defined.

(** C4 fails on the code.  On the scenario page with an input element
    that refuses typing, the solver answers, the apply step raises, the
    wrapper hands back the solver's two-key dict, and unpacking it into three
    names raises [ValueError] before the clean-up: the temp file stays, with
    archival on or off, and nothing is archived. *)
Theorem temp_file_left_when_apply_raises (save : bool) :
  let w := Sample.image_page false in
  let run := normal_captcha (Sample.captcha save true)
               "https://www.cdc.com.sg/booking" true w in
  fst run = Raise (Exn ValueError "unpack") /\
  requests (snd run) = [ReqNormal [0; 0; 0] 1 6 6] /\
  fs (snd run) !! temp_path = Some [0; 0; 0] /\
  fs (snd run) !! "solved_captchas/AB12CD.jpeg" = None.
Proof. destruct save; vm_compute; repeat split; reflexivity. Qed.

(** ** [recaptcha_v2] *)



(** ** [solve] *)

Lemma or_default_nonempty (t default : string) :
  t <> "" -> or_default (Some t) default = t.
Proof.
  intros H. unfold or_default.
  destruct (String.eqb_spec t ""); [contradiction | reflexivity].
Qed.

(** C7, amended.  With solving enabled (or forced) and a non-empty
    [captcha_type] that is neither ["recaptcha_v2"] nor ["normal_captcha"]
    in lower case, [solve] runs no handler: it returns [success = False] with
    the status string [": "] (the empty status and the empty message joined
    by [": "]), and beside the call trace only the debug line changes. *)
Theorem unknown_kind_is_a_no_op
    (self : Captcha) (captcha_type : string) (page_url : option string)
    (force_enable force_debug : bool) (w : world) :
  enabled self || force_enable = true ->
  captcha_type <> "" ->
  lower captcha_type <> "recaptcha_v2" ->
  lower captcha_type <> "normal_captcha" ->
  solve self (Some captcha_type) page_url force_enable force_debug w
  = (Return (VBool false, ": "),
     logged (debug_enabled self || force_debug)
       (LogDebug ("Solving " +:+ upper captcha_type +:+ " for: "
                  +:+ or_default page_url (current_url w)))
       (entered "solve" w)).
Proof.
  intros Hen Hne Hr Hn.
  unfold solve, bind, enter, modify, gets. cbn beta iota.
  rewrite Hen, (or_default_nonempty _ _ Hne).
  destruct (String.eqb_spec (lower captcha_type) "recaptcha_v2"); [contradiction|].
  destruct (String.eqb_spec (lower captcha_type) "normal_captcha"); [contradiction|].
  reflexivity.
Qed.

Lemma unknown_kind_is_a_no_op_witness :
  let w := Sample.recaptcha_page in
  solve (Sample.captcha false true) (Some "turnstile") None false false w
  = (Return (VBool false, ": "),
     emit (LogDebug "Solving TURNSTILE for: https://www.cdc.com.sg/booking")
          (entered "solve" w)).
Proof.
  intros w.
  exact (unknown_kind_is_a_no_op (Sample.captcha false true) "turnstile" None
           false false w eq_refl
           ltac:(discriminate) ltac:(discriminate) ltac:(discriminate)).
Defined.

(** C7 as stated fails: the status returned for an unknown kind is [": "],
    not the empty string. *)
Lemma unknown_kind_status_is_not_empty :
  let run := solve (Sample.captcha false true) (Some "turnstile") None false false
               Sample.recaptcha_page in
  fst run = Return (VBool false, ": ") /\ fst run <> Return (VBool false, "").
Proof. split; [reflexivity | discriminate]. Qed.

Lemma save_captcha_frame (self : Captcha) (path : string) (w : world) :
  let w' := snd (save_captcha self path w) in
  prompts w' = prompts w /\ requests w' = requests w /\ page w' = page w /\
  js_calls w' = js_calls w /\ calls w' = calls w ++ ["save_captcha"].
Proof.
  unfold save_captcha, bind, enter, modify. cbn beta iota.
  rewrite !is_elem_present_run, !locate_entered. cbn beta iota.
  destruct (locate By_ID img_id w) as [i|], (locate By_ID box_id w) as [j|];
    cbn [truthy andb ret snd]; try (repeat split; reflexivity).
  unfold get_attribute. wsimpl.
  destruct (page w !! i) as [el|]; [|repeat split; reflexivity].
  destruct (assoc "src" (el_attrs el)) as [s|]; [|repeat split; reflexivity].
  cbn [lift slice_from]. unfold open_wb, file_write, modify, lift. wsimpl.
  destruct (os_error (open_error w) path); [repeat split; reflexivity|].
  destruct (decodebytes (encode (drop_chars 23 s))); repeat split; reflexivity.
Qed.

Lemma locate_lookup (by_ : By) (value : string) (w : world) (i : nat) :
  locate by_ value w = Some i -> exists el, page w !! i = Some el.
Proof.
  unfold locate.
  assert (G : forall l n, first_index (matches by_ value) l n = Some i ->
                          exists el, l !! (i - n)%nat = Some el /\ (n <= i)%nat).
  { induction l as [|x l IH]; intros n; cbn; [discriminate|].
    destruct (matches by_ value x).
    - intros [= <-]. exists x. rewrite Nat.sub_diag. split; [reflexivity | lia].
    - intros H. destruct (IH _ H) as (el & Hel & Hle). exists el.
      replace (i - n)%nat with (S (i - S n)) by lia. split; [exact Hel | lia]. }
  intros H. destruct (G _ _ H) as (el & Hel & _).
  rewrite Nat.sub_0_r in Hel. eauto.
Qed.

Lemma solve_manual_run
    (self : Captcha) (captcha_type page_url : option string) (force_debug : bool)
    (w : world) :
  enabled self = false ->
  let kind := or_default captcha_type "recaptcha_v2" in
  let dbg := debug_enabled self || force_debug in
  let w3 :=
    set_prompts (prompts w ++ ["Press enter to proceed: "])
      (logged dbg
         (LogDebug ("Manually solving CAPTCHA for: "
                    +:+ or_default page_url (current_url w)))
         (entered "solve" w)) in
  let done_ (w4 : world) :=
    (Return (VBool true, "Manually solved CAPTCHA"),
     logged dbg (LogTook true (upper kind)) w4) in
  exists path,
    (forall j box, locate By_ID box_id w = Some j -> page w !! j = Some box ->
                   path = archive_path box) /\
    solve self captcha_type page_url false force_debug w =
      if save_solved_captchas (log self) && String.eqb (lower kind) "normal_captcha"
      then
        match locate By_ID box_id w with
        | Some _ =>
            match save_captcha self path w3 with
            | (Return _, w4) => done_ w4
            | (Raise e, w4) => (Raise e, w4)
            end
        | None => done_ w3
        end
      else done_ w3.
Proof.
  intros Hen kind dbg w3 done_.
  unfold solve, bind, enter, gets, input, debug_if, modify. cbn beta iota.
  rewrite Hen. cbn [orb]. cbn beta iota. fold kind dbg.
  change (current_url (entered "solve" w)) with (current_url w).
  assert (Hp : prompts (logged dbg
                 (LogDebug ("Manually solving CAPTCHA for: "
                            +:+ or_default page_url (current_url w)))
                 (entered "solve" w)) = prompts w) by (wsimpl; reflexivity).
  rewrite Hp. fold w3.
  destruct (locate By_ID box_id w) as [j|] eqn:Hj.
  2:{ exists "". split; [discriminate|].
      destruct (save_solved_captchas (log self)
                && String.eqb (lower kind) "normal_captcha"); [|reflexivity].
      rewrite is_elem_present_run.
      assert (Hl3 : locate By_ID box_id w3 = locate By_ID box_id w)
        by (unfold locate; subst w3; wsimpl; reflexivity).
      rewrite Hl3, Hj. reflexivity. }
  destruct (locate_lookup _ _ _ _ Hj) as [box Hbox].
  exists (archive_path box). split.
  { intros j' box' [= <-] Hbox'. congruence. }
  destruct (save_solved_captchas (log self) && String.eqb (lower kind) "normal_captcha");
    [|reflexivity].
  rewrite is_elem_present_run.
  assert (Hl3 : locate By_ID box_id w3 = locate By_ID box_id w)
    by (unfold locate; subst w3; wsimpl; reflexivity).
  rewrite Hl3, Hj. cbn [truthy].
  unfold get_attribute.
  assert (Hg3 : page w3 = page w) by (subst w3; wsimpl; reflexivity).
  rewrite Hg3, Hbox. unfold archive_path, typed_value.
  destruct (assoc "value" (el_attrs box)) as [x|];
    destruct (save_captcha _ _ _) as [[v|e] w4]; reflexivity.
Qed.

(** C6, amended.  With solving disabled and not forced, for every kind and
    page, [solve] shows the acknowledgement prompt and calls no solver; it
    never returns a failure: whenever it returns, the result is [(True,
    "Manually solved CAPTCHA")]; and it does return whenever archival is off,
    or the kind is not [normal_captcha], or the input or the image element is
    absent, or the image's [src] after its first 23 characters decodes as
    base64 and the file [solved_captchas/<typed value>.jpeg] can be created
    (which a typed value holding a slash, for one, can prevent). *)
Theorem manual_solve_never_reports_failure
    (self : Captcha) (captcha_type page_url : option string) (force_debug : bool)
    (w : world) :
  enabled self = false ->
  let run := solve self captcha_type page_url false force_debug w in
  prompts (snd run) = prompts w ++ ["Press enter to proceed: "] /\
  requests (snd run) = requests w /\
  (forall v, fst run = Return v -> v = (VBool true, "Manually solved CAPTCHA")) /\
  (archive_is_skipped_or_storable self (or_default captcha_type "recaptcha_v2") w ->
   fst run = Return (VBool true, "Manually solved CAPTCHA")).
Proof.
  intros Hen run. subst run.
  destruct (solve_manual_run self captcha_type page_url force_debug w Hen)
    as (path & Hpath & ->).
  set (kind := or_default captcha_type "recaptcha_v2").
  set (dbg := debug_enabled self || force_debug).
  set (w3 := set_prompts _ _).
  assert (Hp3 : prompts w3 = prompts w ++ ["Press enter to proceed: "])
    by (subst w3; wsimpl; reflexivity).
  assert (Hr3 : requests w3 = requests w) by (subst w3; wsimpl; reflexivity).
  assert (Hl3 : forall by_ value, locate by_ value w3 = locate by_ value w).
  { intros. unfold locate. subst w3. wsimpl. reflexivity. }
  assert (Hg3 : page w3 = page w) by (subst w3; wsimpl; reflexivity).
  assert (Hdone : forall w4, prompts w4 = prompts w3 -> requests w4 = requests w3 ->
            let r := (Return (VBool true, "Manually solved CAPTCHA"),
                      logged dbg (LogTook true (upper kind)) w4) in
            prompts (snd r) = prompts w ++ ["Press enter to proceed: "] /\
            requests (snd r) = requests w /\
            (forall v : pyval * string,
               fst r = Return v -> v = (VBool true, "Manually solved CAPTCHA")) /\
            (archive_is_skipped_or_storable self kind w ->
             fst r = Return (VBool true, "Manually solved CAPTCHA"))).
  { intros w4 H4 H4' r. subst r. wsimpl. rewrite H4, H4', Hp3, Hr3.
    repeat split; auto. intros v [= <-]. reflexivity. }
  destruct (save_solved_captchas (log self)) eqn:Hsave; cbn [andb];
    [|apply Hdone; reflexivity].
  destruct (String.eqb_spec (lower kind) "normal_captcha") as [Hkind|Hkind];
    [|apply Hdone; reflexivity].
  destruct (locate By_ID box_id w) as [j|] eqn:Hj; [|apply Hdone; reflexivity].
  pose proof (save_captcha_frame self path w3) as (Fp & Fr & _).
  destruct (save_captcha self path w3) as [[v|e] w4] eqn:Hrun; cbn [snd] in Fp, Fr;
    [apply Hdone; assumption|].
  wsimpl. rewrite Fp, Fr, Hp3, Hr3.
  repeat split; auto; [discriminate|].
  intros [H|[H|[H|[H|(i & img & s & image & j' & box & Hi & Himg & Hsrc & Hdec
                       & Hj' & Hbox & Hopen)]]]];
    [congruence | contradiction | congruence | |].
  - rewrite (save_captcha_absent self path w3) in Hrun
      by (left; rewrite Hl3; exact H).
    discriminate.
  - rewrite (save_captcha_present self path w3 i j img) in Hrun
      by (rewrite ?Hl3, ?Hg3; assumption).
    assert (Ho3 : open_error w3 = open_error w) by (subst w3; wsimpl; reflexivity).
    rewrite Hsrc, Ho3, (Hpath j' box (eq_trans (eq_sym Hj) Hj') Hbox), Hopen, Hdec in Hrun.
    discriminate.
Qed.

Lemma manual_solve_never_reports_failure_witness :
  let w := Sample.image_page true in
  let run := solve (Sample.captcha true false) (Some "normal_captcha") None false false w in
  prompts (snd run) = ["Press enter to proceed: "] /\
  fst run = Return (VBool true, "Manually solved CAPTCHA").
Proof.
  intros w run.
  destruct (manual_solve_never_reports_failure (Sample.captcha true false)
              (Some "normal_captcha") None false w eq_refl)
    as (Hp & _ & _ & Hret).
  split; [exact Hp|].
  apply Hret.
  right; right; right; right.
  exists 0%nat, (Sample.captcha_img (Some "data:image/jpeg;base64,AAAA")),
         "data:image/jpeg;base64,AAAA", [0; 0; 0], 1%nat, (Sample.captcha_box true).
  repeat split; reflexivity.
Defined.

(** C6 as stated fails: with archival on, kind [normal_captcha] and an
    image whose [src] does not decode, the manual path raises after the
    prompt instead of returning success. *)
Lemma manual_solve_can_raise :
  let run := solve (Sample.captcha true false) (Some "normal_captcha") None false false
               Sample.broken_image_page in
  enabled (Sample.captcha true false) = false /\
  prompts (snd run) = ["Press enter to proceed: "] /\
  fst run = Raise (Exn binascii_Error "Invalid base64-encoded string") /\
  ~ (exists status, fst run = Return (VBool true, status)).
Proof.
  cbv zeta. split; [reflexivity|]. split; [reflexivity|]. split; [reflexivity|].
  intros [status H]. discriminate H.
Qed.

(** ** The call trace *)

Section Traced.

Variable allowed : list string.

Lemma traced_silent {A : Type} (m : M A) :
  (forall w, calls (snd (m w)) = calls w) -> traced allowed m.
Proof.
  intros H w. exists []. rewrite H, app_nil_r. split; [reflexivity | constructor].
Qed.

Lemma traced_ret {A : Type} (a : A) : traced allowed (ret a).
Proof. apply traced_silent. reflexivity. Qed.

Lemma traced_raise {A : Type} (e : exn) : traced allowed (raise (A := A) e).
Proof. apply traced_silent. reflexivity. Qed.

Lemma traced_lift {A : Type} (o : outcome A) : traced allowed (lift o).
Proof. apply traced_silent. reflexivity. Qed.

Lemma traced_enter (name : string) : In name allowed -> traced allowed (enter name).
Proof.
  intros H w. exists [name]. split; [reflexivity|]. constructor; [exact H | constructor].
Qed.

Lemma traced_bind {A B : Type} (m : M A) (k : A -> M B) :
  traced allowed m -> (forall a, traced allowed (k a)) -> traced allowed (bind m k).
Proof.
  intros Hm Hk w. unfold bind.
  destruct (Hm w) as (l1 & E1 & F1).
  destruct (m w) as [[a|e] w1]; cbn [snd] in E1.
  - destruct (Hk a w1) as (l2 & E2 & F2).
    exists (l1 ++ l2). rewrite E2, E1, app_assoc. split; [reflexivity|].
    apply Forall_app; split; assumption.
  - exists l1. split; assumption.
Qed.

Lemma traced_debug_if (flag : bool) (l : log_line) : traced allowed (debug_if flag l).
Proof. apply traced_silent. intros w. unfold debug_if, modify. wsimpl. reflexivity. Qed.

Lemma traced_is_elem_present (by_ : By) (value : string) :
  traced allowed (is_elem_present by_ value).
Proof. apply traced_silent. intros w. rewrite is_elem_present_run. reflexivity. Qed.

Lemma traced_find_element (by_ : By) (value : string) :
  traced allowed (find_element by_ value).
Proof.
  apply traced_silent. intros w. unfold find_element.
  destruct (locate by_ value w); reflexivity.
Qed.

Lemma traced_get_attribute (el : pyval) (name : string) :
  traced allowed (get_attribute el name).
Proof.
  apply traced_silent. intros w. unfold get_attribute.
  destruct el; try reflexivity.
  destruct (page w !! i) as [e|]; [|reflexivity].
  destruct (assoc name (el_attrs e)); reflexivity.
Qed.

Lemma traced_send_keys (el : pyval) (text : string) : traced allowed (send_keys el text).
Proof.
  apply traced_silent. intros w. unfold send_keys.
  destruct el; try reflexivity.
  destruct (page w !! i) as [e|]; [|reflexivity].
  destruct (el_interactable e); reflexivity.
Qed.

Lemma traced_execute_script (script : string) (args : list pyval) :
  traced allowed (execute_script script args).
Proof. apply traced_silent. reflexivity. Qed.

Lemma traced_open_wb (path : string) : traced allowed (open_wb path).
Proof.
  apply traced_silent. intros w. unfold open_wb.
  destruct (os_error (open_error w) path); reflexivity.
Qed.

Lemma traced_file_write (path : string) (data : list Z) :
  traced allowed (file_write path data).
Proof. apply traced_silent. reflexivity. Qed.

Lemma traced_os_rename (src dst : string) : traced allowed (os_rename src dst).
Proof.
  apply traced_silent. intros w. unfold os_rename.
  destruct (fs w !! src); [|reflexivity].
  destruct (os_error (open_error w) dst); reflexivity.
Qed.

Lemma traced_remove_files (paths : list string) : traced allowed (remove_files paths).
Proof. apply traced_silent. reflexivity. Qed.

Lemma traced_input (prompt : string) : traced allowed (input prompt).
Proof. apply traced_silent. reflexivity. Qed.

Lemma traced_gets {A : Type} (f : world -> A) : traced allowed (gets f).
Proof. apply traced_silent. reflexivity. Qed.

Lemma traced_solver_normal (file : string) (a b c : Z) :
  traced allowed (solver_normal file a b c).
Proof.
  apply traced_silent. intros w. unfold solver_normal, submit.
  destruct (fs w !! file); reflexivity.
Qed.

Lemma traced_solver_recaptcha (sitekey : pyval) (url : string) :
  traced allowed (solver_recaptcha sitekey url).
Proof. apply traced_silent. reflexivity. Qed.

Hypothesis wrapper_allowed : In "_solve_captcha" allowed.

Lemma traced__solve_captcha (self : Captcha) (solve_callback : M pyval)
    (result_callback : pyval -> M unit) (debug_enabled_ : bool) :
  traced allowed solve_callback ->
  (forall r, traced allowed (result_callback r)) ->
  traced allowed (_solve_captcha self solve_callback result_callback debug_enabled_).
Proof.
  intros Hs Hr w.
  destruct (Hs (entered "_solve_captcha" w)) as (l1 & E1 & F1).
  destruct (solve_callback (entered "_solve_captcha" w)) as [[r|e] w1] eqn:Hcb;
    cbn [snd] in E1.
  - rewrite (_solve_captcha_returned self _ result_callback debug_enabled_ _ _ _ Hcb).
    destruct (Hr r (logged debug_enabled_ (LogDebug "Received 2Captcha response...") w1))
      as (l2 & E2 & F2).
    exists ("_solve_captcha" :: l1 ++ l2).
    split; [|constructor; [assumption | apply Forall_app; split; assumption]].
    destruct (result_callback r _) as [[u|e'] w3]; cbn [snd] in *; wsimpl;
      rewrite E2; wsimpl; rewrite E1; cbn [entered calls set_calls];
      rewrite <- !app_assoc; reflexivity.
  - exists ("_solve_captcha" :: l1).
    split; [|constructor; assumption].
    rewrite (_solve_captcha_raised self _ result_callback debug_enabled_ _ _ _ Hcb).
    destruct (is_TimeoutException e), (is_NetworkException e), (is_ApiException e),
             (is_Exception e);
      wsimpl; rewrite E1; cbn [entered calls set_calls];
      rewrite <- !app_assoc; reflexivity.
Qed.

End Traced.

Ltac traced_step :=
  match goal with
  | |- traced _ (bind _ _) => apply traced_bind; [|intros ?]
  | |- traced _ (if ?b then _ else _) => destruct b
  | |- traced _ (let '(_, _) := ?p in _) => destruct p
  | |- traced _ (enter _) => apply traced_enter; cbn; tauto
  | |- traced _ (_solve_captcha _ _ _ _) =>
      apply traced__solve_captcha; [cbn; tauto | | intros ?]
  | |- traced _ _ =>
      first [ apply traced_ret | apply traced_raise | apply traced_lift
            | apply traced_gets | apply traced_debug_if | apply traced_is_elem_present
            | apply traced_find_element | apply traced_get_attribute
            | apply traced_send_keys | apply traced_execute_script
            | apply traced_open_wb | apply traced_file_write | apply traced_os_rename
            | apply traced_remove_files | apply traced_input
            | apply traced_solver_normal | apply traced_solver_recaptcha ]
  end.

Lemma traced_save_captcha (self : Captcha) (path : string) :
  traced solve_methods (save_captcha self path).
Proof. unfold save_captcha. repeat traced_step. Qed.

Lemma traced_normal_captcha (self : Captcha) (page_url : string) (dbg : bool) :
  traced solve_methods (normal_captcha self page_url dbg).
Proof.
  unfold normal_captcha.
  repeat first [apply traced_save_captcha | traced_step].
Qed.

Lemma traced_recaptcha_v2 (self : Captcha) (page_url : string) (dbg : bool) :
  traced solve_methods (recaptcha_v2 self page_url dbg).
Proof.
  unfold recaptcha_v2, submit_captcha_response. repeat traced_step.
Qed.

Lemma traced_solve (self : Captcha) (captcha_type page_url : option string)
    (force_enable force_debug : bool) :
  traced solve_methods (solve self captcha_type page_url force_enable force_debug).
Proof.
  unfold solve.
  repeat first [apply traced_save_captcha | apply traced_normal_captcha
               | apply traced_recaptcha_v2 | traced_step].
Qed.

(** C8. [solve] never invokes [cloudflare_turnstile]: every method it
    enters is [solve], [recaptcha_v2], [normal_captcha], [save_captcha] or
    [_solve_captcha].  The class defines [get_captcha_params] and nothing
    named [get_capture_params], so for every driver state
    [cloudflare_turnstile] raises [AttributeError] at its first step, before
    any browser action or solver request. *)
Theorem turnstile_is_unreachable_and_unrunnable :
  (forall self captcha_type page_url force_enable force_debug w,
     exists l,
       calls (snd (solve self captcha_type page_url force_enable force_debug w))
       = calls w ++ l /\
       Forall (fun n => In n solve_methods) l /\
       ~ In "cloudflare_turnstile" l) /\
  (In "get_captcha_params" Captcha_attributes /\
   ~ In "get_capture_params" Captcha_attributes) /\
  (forall unicode_escape json_loads self debug_enabled_ w,
     cloudflare_turnstile unicode_escape json_loads self debug_enabled_ w
     = (Raise (Exn AttributeError
                 "'Captcha' object has no attribute 'get_capture_params'"),
        entered "cloudflare_turnstile" w)).
Proof.
  split; [|split].
  - intros. destruct (traced_solve self captcha_type page_url force_enable force_debug w)
      as (l & E & F).
    exists l. split; [exact E|]. split; [exact F|].
    intros Hin. pose proof (proj1 (List.Forall_forall _ _) F _ Hin) as H.
    cbn in H. intuition discriminate.
  - split; [cbn; tauto|]. cbn. intuition discriminate.
  - reflexivity.
Qed.

Lemma or_default_same (u : string) : or_default (Some u) u = u.
Proof. unfold or_default. destruct (String.eqb u ""); reflexivity. Qed.

(** [recaptcha_v2] hands back whatever the wrapper returns and never raises. *)
Lemma recaptcha_v2_returns (self : Captcha) (page_url : string) (dbg : bool) (w : world) :
  exists v w', recaptcha_v2 self page_url dbg w = (Return v, w').
Proof.
  unfold recaptcha_v2, bind, enter, modify. cbn beta iota.
  rewrite is_elem_present_run, locate_entered.
  destruct (locate By_CSS_SELECTOR "[data-sitekey]" w) as [i|] eqn:Hi; cbn [truthy];
    [|eauto].
  destruct (locate_lookup _ _ _ _ Hi) as [el Hel].
  unfold get_attribute. wsimpl. rewrite Hel.
  destruct (assoc "data-sitekey" (el_attrs el)); apply _solve_captcha_returns.
Qed.

(** C10. An omitted [captcha_type] is ["recaptcha_v2"], an omitted
    [page_url] is the driver's current URL; so with solving enabled a bare
    [solve(driver)] runs [recaptcha_v2] against the current URL and reports
    what it returned. *)
Theorem solve_defaults
    (self : Captcha) (captcha_type page_url : option string)
    (force_enable force_debug : bool) (w : world) :
  solve self None page_url force_enable force_debug w
  = solve self (Some "recaptcha_v2") page_url force_enable force_debug w /\
  solve self captcha_type None force_enable force_debug w
  = solve self captcha_type (Some (current_url w)) force_enable force_debug w /\
  (enabled self = true ->
   let dbg := debug_enabled self || force_debug in
   let w1 := logged dbg (LogDebug ("Solving RECAPTCHA_V2 for: " +:+ current_url w))
               (entered "solve" w) in
   exists triple w2,
     recaptcha_v2 self (current_url w) dbg w1 = (Return triple, w2) /\
     solve self None None false force_debug w =
       match unpack3 triple with
       | Return (success, status, msg) =>
           (Return (success, str status +:+ ": " +:+ str msg),
            if truthy success then logged dbg (LogTook false "RECAPTCHA_V2") w2 else w2)
       | Raise e => (Raise e, w2)
       end).
Proof.
  split; [reflexivity|]. split.
  - unfold solve, bind, enter, modify, gets. cbn beta iota.
    change (current_url (entered "solve" w)) with (current_url w).
    rewrite or_default_same. reflexivity.
  - intros Hen dbg w1.
    destruct (recaptcha_v2_returns self (current_url w) dbg w1) as (triple & w2 & Hrun).
    exists triple, w2. split; [exact Hrun|].
    unfold solve, bind, enter, gets, debug_if, modify. cbn beta iota.
    rewrite Hen. cbn [orb or_default]. cbn beta iota.
    change (current_url (entered "solve" w)) with (current_url w).
    change (upper "recaptcha_v2") with "RECAPTCHA_V2".
    change (String.eqb (lower "recaptcha_v2") "recaptcha_v2") with true.
    cbn beta iota. fold dbg.
    change (logged dbg (LogDebug ("Solving " +:+ "RECAPTCHA_V2" +:+ " for: "
                                  +:+ current_url w)) (entered "solve" w)) with w1.
    rewrite Hrun.
    unfold lift. destruct (unpack3 triple) as [[[success status] msg]|e]; [|reflexivity].
    destruct (truthy success); reflexivity.
Qed.

Lemma solve_defaults_witness :
  let w := Sample.recaptcha_page in
  fst (solve (Sample.captcha false true) None None false false w)
  = Return (VBool true,
            "SOLVED: {'captchaId': '2122988149', 'code': '03AGdBq25-token'}").
Proof.
  intros w.
  destruct (solve_defaults (Sample.captcha false true) None None false false w)
    as (_ & _ & H).
  destruct (H eq_refl) as (triple & w2 & Hrun & Hsolve).
  rewrite Hsolve.
  vm_compute in Hrun. injection Hrun as Htriple _.
  rewrite <- Htriple. reflexivity.
Defined.

Lemma normal_captcha_cleans_up_after_failure
    (self : Captcha) (page_url : string) (debug_enabled_ : bool)
    (w : world) (i j : nat) (img : element) (s : string) (image : list Z) (e : exn) :
  locate By_ID img_id w = Some i -> page w !! i = Some img ->
  assoc "src" (el_attrs img) = Some s ->
  decodebytes (encode (drop_chars 23 s)) = Return image ->
  locate By_ID box_id w = Some j ->
  service w (ReqNormal image 1 6 6) = Raise e ->
  is_Exception e = true ->
  exists status w',
    normal_captcha self page_url debug_enabled_ w
    = (Return (VTuple [VBool false; VStr status; VExc e]), w') /\
    page w' = page w /\
    fs w' = delete temp_path (fs w).
Proof.
  intros Hi Himg Hsrc Hdec Hj Hsvc Hexc.
  unfold normal_captcha, bind, enter, modify. cbn beta iota.
  rewrite (save_captcha_present self _ (entered "normal_captcha" w) i j img Hi Hj Himg).
  rewrite Hsrc, os_error_temp_join, Hdec. cbn [truthy].
  set (w1 := set_fs _ _).
  assert (Hcb : solver_normal (os_path_join "temp" "normal_captcha.jpeg") 1 6 6
                  (entered "_solve_captcha" w1)
                = (Raise e,
                   set_requests (requests w ++ [ReqNormal image 1 6 6])
                                (entered "_solve_captcha" w1))).
  { unfold solver_normal, submit. subst w1. wsimpl.
    change (os_path_join "temp" "normal_captcha.jpeg") with temp_path.
    rewrite lookup_insert_eq. wsimpl. rewrite Hsvc. reflexivity. }
  rewrite (_solve_captcha_raised self _ _ debug_enabled_ _ _ _ Hcb).
  rewrite Hexc.
  change (os_path_join "temp" "normal_captcha.jpeg") with temp_path in *.
  destruct (is_TimeoutException e); [|destruct (is_NetworkException e);
                                      [|destruct (is_ApiException e)]];
    cbn [lift unpack3 iter_items truthy andb]; rewrite andb_false_r; cbn [andb];
    unfold remove_files, modify, ret; cbn [foldr];
    eexists; eexists; (split; [reflexivity|]); subst w1; wsimpl;
    (split; [reflexivity|]);
    rewrite insert_insert_eq, delete_insert_eq; reflexivity.
Qed.

(** An exception outside [Exception] is swallowed as well, and leaves the
    wrapper's result at [None]. *)
Lemma base_exception_gives_None
    (self : Captcha) (solve_callback : M pyval) (result_callback : pyval -> M unit)
    (debug_enabled_ : bool) (w w1 : world) (e : exn) :
  solve_callback (entered "_solve_captcha" w) = (Raise e, w1) ->
  is_Exception e = false ->
  fst (_solve_captcha self solve_callback result_callback debug_enabled_ w) = Return VNone.
Proof.
  intros Hcb Hexc.
  rewrite (_solve_captcha_raised self _ result_callback debug_enabled_ _ _ _ Hcb).
  destruct e as [c args]. destruct c; try discriminate Hexc; reflexivity.
Qed.

(** * Further properties of the module *)

(** ** What a computation leaves alone *)

Section Keeps.

Context {X : Type}.
Variable f : world -> X.

Lemma keeps_ret {A : Type} (a : A) : keeps f (ret a).
Proof. intros w. reflexivity. Qed.

Lemma keeps_raise {A : Type} (e : exn) : keeps f (raise (A := A) e).
Proof. intros w. reflexivity. Qed.

Lemma keeps_lift {A : Type} (o : outcome A) : keeps f (lift o).
Proof. intros w. reflexivity. Qed.

Lemma keeps_gets {A : Type} (g : world -> A) : keeps f (gets g).
Proof. intros w. reflexivity. Qed.

Lemma keeps_bind {A B : Type} (m : M A) (k : A -> M B) :
  keeps f m -> (forall a, keeps f (k a)) -> keeps f (bind m k).
Proof.
  intros Hm Hk w. unfold bind. specialize (Hm w).
  destruct (m w) as [[a|e] w1]; cbn [snd] in *; [rewrite Hk|]; exact Hm.
Qed.

Lemma keeps_is_elem_present (by_ : By) (value : string) :
  keeps f (is_elem_present by_ value).
Proof. intros w. rewrite is_elem_present_run. reflexivity. Qed.

Lemma keeps_find_element (by_ : By) (value : string) :
  keeps f (find_element by_ value).
Proof. intros w. unfold find_element. destruct (locate by_ value w); reflexivity. Qed.

Lemma keeps_get_attribute (el : pyval) (name : string) :
  keeps f (get_attribute el name).
Proof.
  intros w. unfold get_attribute. destruct el; try reflexivity.
  destruct (page w !! i) as [e|]; [|reflexivity].
  destruct (assoc name (el_attrs e)); reflexivity.
Qed.

Lemma keeps_wait_clickable_text (locator : string) :
  keeps f (wait_clickable_text locator).
Proof.
  intros w. unfold wait_clickable_text. destruct (xpath_text w locator); reflexivity.
Qed.

Lemma keeps_get_log_browser : keeps f get_log_browser.
Proof. intros w. reflexivity. Qed.

Lemma keeps_time_sleep (seconds : Z) : keeps f (time_sleep seconds).
Proof. intros w. reflexivity. Qed.

Section Calls.
Hypothesis f_calls : forall c w, f (set_calls c w) = f w.

Lemma keeps_enter (name : string) : keeps f (enter name).
Proof. intros w. apply f_calls. Qed.
End Calls.

Section LogLines.
Hypothesis f_log_lines : forall l w, f (set_log_lines l w) = f w.

Lemma keeps_logged (flag : bool) (l : log_line) (w : world) : f (logged flag l w) = f w.
Proof. destruct flag; [apply f_log_lines | reflexivity]. Qed.

Lemma keeps_debug_if (flag : bool) (l : log_line) : keeps f (debug_if flag l).
Proof. intros w. apply keeps_logged. Qed.

Lemma keeps_log_error (l : log_line) : keeps f (log_error l).
Proof. intros w. apply f_log_lines. Qed.
End LogLines.

Section Page.
Hypothesis f_page : forall p w, f (set_page p w) = f w.

Lemma keeps_send_keys (el : pyval) (text : string) : keeps f (send_keys el text).
Proof.
  intros w. unfold send_keys. destruct el; try reflexivity.
  destruct (page w !! i) as [e|]; [|reflexivity].
  destruct (el_interactable e); [apply f_page | reflexivity].
Qed.
End Page.

Section Scripts.
Hypothesis f_js_calls : forall j w, f (set_js_calls j w) = f w.

Lemma keeps_execute_script (script : string) (args : list pyval) :
  keeps f (execute_script script args).
Proof. intros w. apply f_js_calls. Qed.
End Scripts.

Section Files.
Hypothesis f_fs : forall m w, f (set_fs m w) = f w.

Lemma keeps_open_wb (path : string) : keeps f (open_wb path).
Proof.
  intros w. unfold open_wb.
  destruct (os_error (open_error w) path); [reflexivity | apply f_fs].
Qed.

Lemma keeps_file_write (path : string) (data : list Z) : keeps f (file_write path data).
Proof. intros w. apply f_fs. Qed.

Lemma keeps_os_rename (src dst : string) : keeps f (os_rename src dst).
Proof.
  intros w. unfold os_rename. destruct (fs w !! src); [|reflexivity].
  destruct (os_error (open_error w) dst); [reflexivity | apply f_fs].
Qed.

Lemma keeps_remove_files (paths : list string) : keeps f (remove_files paths).
Proof. intros w. apply f_fs. Qed.
End Files.

Section Console.
Hypothesis f_prompts : forall p w, f (set_prompts p w) = f w.
Hypothesis f_stdout : forall o w, f (set_stdout o w) = f w.
Hypothesis f_refreshes : forall n w, f (set_refreshes n w) = f w.

Lemma keeps_input (prompt : string) : keeps f (input prompt).
Proof. intros w. apply f_prompts. Qed.

Lemma keeps_print (text : string) : keeps f (print text).
Proof. intros w. apply f_stdout. Qed.

Lemma keeps_refresh : keeps f refresh.
Proof. intros w. apply f_refreshes. Qed.
End Console.

Section Requests.
Hypothesis f_requests : forall r w, f (set_requests r w) = f w.

Lemma keeps_submit (req : solve_request) : keeps f (submit req).
Proof. intros w. apply f_requests. Qed.

Lemma keeps_solver_normal (file : string) (a b c : Z) :
  keeps f (solver_normal file a b c).
Proof.
  intros w. unfold solver_normal. destruct (fs w !! file); [apply keeps_submit | reflexivity].
Qed.
End Requests.

Section WrapperKeeps.
Hypothesis f_calls : forall c w, f (set_calls c w) = f w.
Hypothesis f_log_lines : forall l w, f (set_log_lines l w) = f w.

Lemma keeps__solve_captcha (self : Captcha) (solve_callback : M pyval)
    (result_callback : pyval -> M unit) (debug_enabled_ : bool) :
  keeps f solve_callback ->
  (forall r, keeps f (result_callback r)) ->
  keeps f (_solve_captcha self solve_callback result_callback debug_enabled_).
Proof.
  intros Hs Hr w.
  pose proof (Hs (entered "_solve_captcha" w)) as E1.
  destruct (solve_callback (entered "_solve_captcha" w)) as [[r|e] w1] eqn:Hcb;
    cbn [snd] in E1.
  - rewrite (_solve_captcha_returned self _ result_callback debug_enabled_ _ _ _ Hcb).
    pose proof (Hr r (logged debug_enabled_ (LogDebug "Received 2Captcha response...") w1))
      as E2.
    destruct (result_callback r _) as [[u|e'] w3]; cbn [snd] in *;
      rewrite (keeps_logged f_log_lines), E2, (keeps_logged f_log_lines), E1;
      apply f_calls.
  - rewrite (_solve_captcha_raised self _ result_callback debug_enabled_ _ _ _ Hcb).
    destruct (is_TimeoutException e), (is_NetworkException e), (is_ApiException e),
             (is_Exception e);
      cbn [snd]; unfold emit;
      rewrite ?(keeps_logged f_log_lines), ?f_log_lines, E1; apply f_calls.
Qed.
End WrapperKeeps.

End Keeps.

Ltac frame_side := intros; reflexivity.

Ltac keeps_step :=
  match goal with
  | |- keeps _ (bind _ _) => apply keeps_bind; [|intros ?]
  | |- keeps _ (if ?b then _ else _) => destruct b
  | |- keeps _ (let '(_, _) := ?p in _) => destruct p
  | |- keeps _ (_solve_captcha _ _ _ _) =>
      apply keeps__solve_captcha; [frame_side | frame_side | | intros ?]
  | |- keeps _ _ =>
      first [ apply keeps_ret | apply keeps_raise | apply keeps_lift | apply keeps_gets
            | apply keeps_is_elem_present | apply keeps_find_element
            | apply keeps_get_attribute | apply keeps_wait_clickable_text
            | apply keeps_get_log_browser | apply keeps_time_sleep
            | apply keeps_enter; frame_side
            | apply keeps_debug_if; frame_side
            | apply keeps_log_error; frame_side
            | apply keeps_send_keys; frame_side
            | apply keeps_execute_script; frame_side
            | apply keeps_open_wb; frame_side
            | apply keeps_file_write; frame_side
            | apply keeps_os_rename; frame_side
            | apply keeps_remove_files; frame_side
            | apply keeps_input; frame_side
            | apply keeps_print; frame_side
            | apply keeps_refresh; frame_side
            | apply keeps_solver_normal; frame_side
            | apply keeps_submit; frame_side ]
  end.

Lemma save_captcha_keeps_requests (self : Captcha) (path : string) :
  keeps requests (save_captcha self path).
Proof. unfold save_captcha. repeat keeps_step. Qed.

Lemma recaptcha_v2_keeps_fs (self : Captcha) (page_url : string) (dbg : bool) :
  keeps fs (recaptcha_v2 self page_url dbg).
Proof. unfold recaptcha_v2, submit_captcha_response, solver_recaptcha. repeat keeps_step. Qed.

(** ** What a computation adds *)

Section Grows.

Context {X : Type}.
Variable f : world -> list X.

Lemma grows_keeps {A : Type} (n : nat) (m : M A) : keeps f m -> grows f n m.
Proof.
  intros H w. exists []. rewrite H, app_nil_r. split; [reflexivity | cbn; lia].
Qed.

Lemma grows_bind_l {A B : Type} (n : nat) (m : M A) (k : A -> M B) :
  keeps f m -> (forall a, grows f n (k a)) -> grows f n (bind m k).
Proof.
  intros Hm Hk w. unfold bind. specialize (Hm w).
  destruct (m w) as [[a|e] w1]; cbn [snd] in *.
  - destruct (Hk a w1) as (l & E & L). exists l. rewrite E, Hm. auto.
  - exists []. rewrite Hm, app_nil_r. split; [reflexivity | cbn; lia].
Qed.

Lemma grows_bind_r {A B : Type} (n : nat) (m : M A) (k : A -> M B) :
  grows f n m -> (forall a, keeps f (k a)) -> grows f n (bind m k).
Proof.
  intros Hm Hk w. unfold bind. destruct (Hm w) as (l & E & L).
  destruct (m w) as [[a|e] w1]; cbn [snd] in *; exists l; [rewrite Hk|]; auto.
Qed.

Hypothesis f_calls : forall c w, f (set_calls c w) = f w.
Hypothesis f_log_lines : forall l w, f (set_log_lines l w) = f w.

Lemma grows__solve_captcha (self : Captcha) (n : nat) (solve_callback : M pyval)
    (result_callback : pyval -> M unit) (debug_enabled_ : bool) :
  (grows f n solve_callback /\ (forall r, keeps f (result_callback r))) \/
  (keeps f solve_callback /\ (forall r, grows f n (result_callback r))) ->
  grows f n (_solve_captcha self solve_callback result_callback debug_enabled_).
Proof.
  intros H w.
  assert (Hs : exists l1, f (snd (solve_callback (entered "_solve_captcha" w)))
                          = f w ++ l1 /\
                 ((length l1 <= n)%nat /\ (forall r, keeps f (result_callback r)) \/
                  l1 = [] /\ (forall r, grows f n (result_callback r)))).
  { destruct H as [[Hs Hr]|[Hs Hr]].
    - destruct (Hs (entered "_solve_captcha" w)) as (l1 & E & L).
      exists l1. rewrite E. unfold entered. rewrite f_calls. auto.
    - exists []. rewrite Hs, app_nil_r. unfold entered. rewrite f_calls. auto. }
  destruct Hs as (l1 & E1 & Hrest).
  destruct (solve_callback (entered "_solve_captcha" w)) as [[r|e] w1] eqn:Hcb;
    cbn [snd] in E1.
  - rewrite (_solve_captcha_returned self _ result_callback debug_enabled_ _ _ _ Hcb).
    set (w2 := logged debug_enabled_ (LogDebug "Received 2Captcha response...") w1).
    assert (E2 : f w2 = f w ++ l1)
      by (subst w2; rewrite (keeps_logged f f_log_lines); exact E1).
    assert (Hrc : exists l2, f (snd (result_callback r w2)) = f w ++ l2 /\
                             (length l2 <= n)%nat).
    { destruct Hrest as [[L Hr]|[-> Hr]].
      - exists l1. rewrite Hr. auto.
      - destruct (Hr r w2) as (l2 & E & L). exists l2.
        rewrite E, E2, app_nil_r. auto. }
    destruct Hrc as (l2 & E & L). exists l2. split; [|exact L].
    destruct (result_callback r w2) as [[u|e'] w3]; cbn [snd] in *;
      rewrite (keeps_logged f f_log_lines); exact E.
  - exists l1. split.
    + rewrite (_solve_captcha_raised self _ result_callback debug_enabled_ _ _ _ Hcb).
      destruct (is_TimeoutException e), (is_NetworkException e), (is_ApiException e),
               (is_Exception e);
        cbn [snd]; unfold emit;
        rewrite ?(keeps_logged f f_log_lines), ?f_log_lines; exact E1.
    + destruct Hrest as [[L _]|[-> _]]; [exact L | cbn; lia].
Qed.

End Grows.

Lemma grows_submit (req : solve_request) : grows requests 1 (submit req).
Proof. intros w. exists [req]. split; [reflexivity | cbn; lia]. Qed.

Lemma grows_solver_normal (file : string) (a b c : Z) :
  grows requests 1 (solver_normal file a b c).
Proof.
  intros w. unfold solver_normal. destruct (fs w !! file).
  - apply grows_submit.
  - exists []. rewrite app_nil_r. split; [reflexivity | cbn; lia].
Qed.

Lemma grows_execute_script (script : string) (args : list pyval) :
  grows js_calls 1 (execute_script script args).
Proof. intros w. exists [(script, args)]. split; [reflexivity | cbn; lia]. Qed.

Ltac keeps_all := solve [repeat keeps_step].

Ltac grows_step :=
  match goal with
  | |- grows _ _ (bind _ _) =>
      first [ apply grows_bind_l; [keeps_all | intros ?]
            | apply grows_bind_r; [|intros ?; keeps_all] ]
  | |- grows _ _ (if ?b then _ else _) => destruct b
  | |- grows _ _ (let '(_, _) := ?p in _) => destruct p
  | |- grows _ _ (_solve_captcha _ _ _ _) =>
      apply grows__solve_captcha;
      [frame_side | frame_side
      | first [ left; split; [|intros ?; keeps_all]
              | right; split; [keeps_all | intros ?] ] ]
  | |- grows _ _ _ =>
      first [ apply grows_submit | apply grows_solver_normal
            | apply grows_execute_script | apply grows_keeps; keeps_all ]
  end.

Lemma recaptcha_v2_grows_requests (self : Captcha) (page_url : string) (dbg : bool) :
  grows requests 1 (recaptcha_v2 self page_url dbg).
Proof.
  unfold recaptcha_v2, submit_captcha_response, solver_recaptcha.
  repeat grows_step.
Qed.

Lemma recaptcha_v2_grows_js_calls (self : Captcha) (page_url : string) (dbg : bool) :
  grows js_calls 1 (recaptcha_v2 self page_url dbg).
Proof.
  unfold recaptcha_v2, submit_captcha_response, solver_recaptcha.
  repeat grows_step.
Qed.

Lemma normal_captcha_grows_requests (self : Captcha) (page_url : string) (dbg : bool) :
  grows requests 1 (normal_captcha self page_url dbg).
Proof. unfold normal_captcha, save_captcha. repeat grows_step. Qed.

Lemma normal_captcha_keeps_js_calls (self : Captcha) (page_url : string) (dbg : bool) :
  keeps js_calls (normal_captcha self page_url dbg).
Proof. unfold normal_captcha, save_captcha. repeat keeps_step. Qed.

Lemma solve_grows_requests (self : Captcha) (captcha_type page_url : option string)
    (force_enable force_debug : bool) :
  grows requests 1 (solve self captcha_type page_url force_enable force_debug).
Proof.
  unfold solve, normal_captcha, save_captcha, recaptcha_v2, submit_captcha_response,
    solver_recaptcha.
  repeat grows_step.
Qed.

Lemma solve_grows_js_calls (self : Captcha) (captcha_type page_url : option string)
    (force_enable force_debug : bool) :
  grows js_calls 1 (solve self captcha_type page_url force_enable force_debug).
Proof.
  unfold solve, normal_captcha, save_captcha, recaptcha_v2, submit_captcha_response,
    solver_recaptcha.
  repeat grows_step.
Qed.

(** ** More on the wrapper *)

(** X1. Whatever the two callbacks do, [_solve_captcha] returns, and what it
    returns is one of four things: the triple [(True, "SOLVED", value)], a
    triple [(False, tag, exception)] with one of the four failure tags, the
    solve callback's own value (when the apply step raised), or [None] (when
    the solve callback raised outside [Exception]). *)
Theorem wrapper_result_shapes
    (self : Captcha) (solve_callback : M pyval) (result_callback : pyval -> M unit)
    (debug_enabled_ : bool) (w : world) :
  exists v w',
    _solve_captcha self solve_callback result_callback debug_enabled_ w = (Return v, w') /\
    ((exists value, v = VTuple [VBool true; VStr "SOLVED"; value]) \/
     (exists tag e,
        v = VTuple [VBool false; VStr tag; VExc e] /\
        In tag ["TIMEOUT"; "NETWORK_ERROR"; "API_ERROR"; "UNKNOWN_ERROR"]) \/
     (exists w1, solve_callback (entered "_solve_captcha" w) = (Return v, w1)) \/
     (v = VNone /\
      exists e w1, solve_callback (entered "_solve_captcha" w) = (Raise e, w1) /\
                   is_Exception e = false)).
Proof.
  destruct (solve_callback (entered "_solve_captcha" w)) as [[r|e] w1] eqn:Hcb.
  - rewrite (_solve_captcha_returned self _ result_callback debug_enabled_ _ _ _ Hcb).
    destruct (result_callback r _) as [[u|e'] w3]; eexists; eexists;
      (split; [reflexivity|]); [left; eauto | right; right; left; eauto].
  - rewrite (_solve_captcha_raised self _ result_callback debug_enabled_ _ _ _ Hcb).
    destruct (is_TimeoutException e); [|destruct (is_NetworkException e);
      [|destruct (is_ApiException e); [|destruct (is_Exception e) eqn:Hexc]]];
      eexists; eexists; (split; [reflexivity|]);
      try (right; left; eexists; eexists; split; [reflexivity | cbn; tauto]).
    right; right; right. split; [reflexivity|]. eauto.
Qed.

(** X2. The debug flag gates the lines of the three known failures but not
    those of an unknown one: with debugging off, a timeout, network or API
    failure adds no log line, while any other exception derived from
    [Exception] still logs the exception and its traceback as errors. *)
Theorem unknown_error_is_logged_without_debug
    (self : Captcha) (solve_callback : M pyval) (result_callback : pyval -> M unit)
    (w w1 : world) (e : exn) :
  solve_callback (entered "_solve_captcha" w) = (Raise e, w1) ->
  is_Exception e = true ->
  let w' := snd (_solve_captcha self solve_callback result_callback false w) in
  log_lines w' =
    if is_TimeoutException e || is_NetworkException e || is_ApiException e
    then log_lines w1
    else log_lines w1 ++ [LogError (exc_args e); LogTraceback e].
Proof.
  intros Hcb Hexc w'. subst w'.
  rewrite (_solve_captcha_raised self _ result_callback false _ _ _ Hcb), Hexc.
  destruct (is_TimeoutException e); [reflexivity|].
  destruct (is_NetworkException e); [reflexivity|].
  destruct (is_ApiException e); [reflexivity|].
  cbn. rewrite <- app_assoc. reflexivity.
Qed.

Lemma unknown_error_is_logged_without_debug_witness :
  let e := Exn (OtherException "JSONDecodeError") "Expecting value" in
  let w := Sample.browser [] (Sample.fails e) in
  let solve_callback := solver_recaptcha (VStr "6Lc_site-key") "https://www.cdc.com.sg/" in
  log_lines (snd (_solve_captcha (Sample.captcha false true) solve_callback
                    submit_captcha_response false w))
  = [LogError "Expecting value"; LogTraceback e].
Proof.
  intros e w solve_callback.
  exact (unknown_error_is_logged_without_debug (Sample.captcha false true)
           solve_callback submit_captcha_response w
           (snd (solve_callback (entered "_solve_captcha" w))) e eq_refl eq_refl).
Defined.

(** ** More on [save_captcha] *)

Lemma drop_chars_short (n : nat) (s : string) :
  (String.length s <= n)%nat -> drop_chars n s = "".
Proof.
  revert s. induction n as [|n IH]; intros [|c s] H; cbn in *;
    try reflexivity; try lia.
  apply IH. lia.
Qed.

(** X3. [save_captcha] on a page with both elements, when the image cannot be
    stored.  Without a [src] attribute it raises [TypeError] before touching
    any file.  With a [src] whose tail after 23 characters is not base64, at
    a path where a file can be created, the file has already been opened for
    writing: the decoder's exception propagates and leaves an empty file at
    the path, whatever was stored there before; every other file is
    untouched.  At a path where no file can be created, the error of [open]
    propagates and no file is touched, whatever the [src] holds. *)
Theorem save_captcha_failure_modes
    (self : Captcha) (path : string) (w : world) (i j : nat) (img : element) :
  locate By_ID img_id w = Some i ->
  locate By_ID box_id w = Some j ->
  page w !! i = Some img ->
  (assoc "src" (el_attrs img) = None ->
   save_captcha self path w
   = (Raise (Exn TypeError "object is not subscriptable"), entered "save_captcha" w)) /\
  (forall s e,
     assoc "src" (el_attrs img) = Some s ->
     decodebytes (encode (drop_chars 23 s)) = Raise e ->
     os_error (open_error w) path = None ->
     exists w',
       save_captcha self path w = (Raise e, w') /\
       fs w' !! path = Some [] /\
       (forall p, p <> path -> fs w' !! p = fs w !! p)) /\
  (forall s e,
     assoc "src" (el_attrs img) = Some s ->
     os_error (open_error w) path = Some e ->
     save_captcha self path w = (Raise e, entered "save_captcha" w)).
Proof.
  intros Hi Hj Himg.
  rewrite (save_captcha_present self path w i j img Hi Hj Himg).
  split; [|split].
  - intros ->. reflexivity.
  - intros s e -> -> ->. eexists; split; [reflexivity|]. wsimpl.
    split; [apply lookup_insert_eq|].
    intros p Hp. apply lookup_insert_ne. congruence.
  - intros s e -> ->. reflexivity.
Qed.

Lemma save_captcha_failure_modes_witness :
  let w := set_fs {[ "solved_captchas/AB12CD.jpeg" := [255; 216; 255] ]}
                  Sample.broken_image_page in
  exists w',
    save_captcha (Sample.captcha true false) "solved_captchas/AB12CD.jpeg" w
    = (Raise (Exn binascii_Error "Invalid base64-encoded string"), w') /\
    fs w' !! "solved_captchas/AB12CD.jpeg" = Some [].
Proof.
  intros w.
  destruct (save_captcha_failure_modes (Sample.captcha true false)
              "solved_captchas/AB12CD.jpeg" w 0 1
              (Sample.captcha_img (Some "data:image/jpeg;base64,A"))
              eq_refl eq_refl eq_refl) as (_ & H & _).
  destruct (H "data:image/jpeg;base64,A"
              (Exn binascii_Error "Invalid base64-encoded string")
              eq_refl eq_refl eq_refl)
    as (w' & Hrun & Hfile & _).
  exists w'. split; [exact Hrun | exact Hfile].
Defined.

(** X4. [save_captcha] on a page with both elements and a [src] whose tail
    decodes, at a path where a file can be created: it returns the input
    element, stores exactly the decoded bytes at the path, and changes no
    other file, no element of the page, and sends nothing to the solving
    service. *)
Theorem save_captcha_writes_the_decoded_image
    (self : Captcha) (path : string) (w : world) (i j : nat) (img : element)
    (s : string) (image : list Z) :
  locate By_ID img_id w = Some i ->
  locate By_ID box_id w = Some j ->
  page w !! i = Some img ->
  assoc "src" (el_attrs img) = Some s ->
  decodebytes (encode (drop_chars 23 s)) = Return image ->
  os_error (open_error w) path = None ->
  exists w',
    save_captcha self path w = (Return (VElem j), w') /\
    fs w' = <[path := image]> (fs w) /\
    page w' = page w /\ requests w' = requests w /\ js_calls w' = js_calls w.
Proof.
  intros Hi Hj Himg Hsrc Hdec Hopen.
  rewrite (save_captcha_present self path w i j img Hi Hj Himg), Hsrc, Hopen, Hdec.
  eexists; split; [reflexivity|]. wsimpl.
  rewrite insert_insert_eq. repeat split; reflexivity.
Qed.

Lemma save_captcha_writes_the_decoded_image_witness :
  exists w',
    save_captcha (Sample.captcha true true) temp_path (Sample.image_page true)
    = (Return (VElem 1), w') /\
    fs w' = <[temp_path := [0; 0; 0]]> (fs (Sample.image_page true)).
Proof.
  destruct (save_captcha_writes_the_decoded_image (Sample.captcha true true) temp_path
              (Sample.image_page true) 0 1
              (Sample.captcha_img (Some "data:image/jpeg;base64,AAAA"))
              "data:image/jpeg;base64,AAAA" [0; 0; 0]
              eq_refl eq_refl eq_refl eq_refl eq_refl eq_refl)
    as (w' & Hrun & Hfs & _).
  exists w'. split; [exact Hrun | exact Hfs].
Defined.

(** X5. The first 23 characters of [src] are dropped without being looked
    at: a [src] of at most 23 characters, such as a short relative URL,
    makes [save_captcha] succeed and store an empty file, at a path where a
    file can be created. *)
Theorem save_captcha_short_src_gives_empty_file
    (self : Captcha) (path : string) (w : world) (i j : nat) (img : element)
    (s : string) :
  locate By_ID img_id w = Some i ->
  locate By_ID box_id w = Some j ->
  page w !! i = Some img ->
  assoc "src" (el_attrs img) = Some s ->
  (String.length s <= 23)%nat ->
  os_error (open_error w) path = None ->
  exists w',
    save_captcha self path w = (Return (VElem j), w') /\
    fs w' !! path = Some [].
Proof.
  intros Hi Hj Himg Hsrc Hlen Hopen.
  rewrite (save_captcha_present self path w i j img Hi Hj Himg), Hsrc, Hopen.
  rewrite (drop_chars_short _ _ Hlen).
  eexists; split; [reflexivity|]. wsimpl. apply lookup_insert_eq.
Qed.

Lemma save_captcha_short_src_gives_empty_file_witness :
  exists w',
    save_captcha (Sample.captcha true true) temp_path Scenario.short_src_page
    = (Return (VElem 1), w') /\
    fs w' !! temp_path = Some [].
Proof.
  exact (save_captcha_short_src_gives_empty_file (Sample.captcha true true) temp_path
           Scenario.short_src_page 0 1 (Sample.captcha_img (Some "/captcha.jpg"))
           "/captcha.jpg" eq_refl eq_refl eq_refl eq_refl ltac:(cbn; lia) eq_refl).
Defined.

(** ** The bytes [save_captcha] stores *)

Lemma table_a2b_base64_range (c v : Z) :
  table_a2b_base64 c = Some v -> 0 <= v < 64.
Proof.
  unfold table_a2b_base64.
  destruct ((65 <=? c) && (c <=? 90)) eqn:E1.
  { intros [= <-]. apply andb_true_iff in E1. lia. }
  destruct ((97 <=? c) && (c <=? 122)) eqn:E2.
  { intros [= <-]. apply andb_true_iff in E2. lia. }
  destruct ((48 <=? c) && (c <=? 57)) eqn:E3.
  { intros [= <-]. apply andb_true_iff in E3. lia. }
  destruct (c =? 43); [intros [= <-]; lia|].
  destruct (c =? 47); [intros [= <-]; lia|].
  discriminate.
Qed.

Lemma lor_below (a b n : Z) :
  0 <= n -> 0 <= a < 2 ^ n -> 0 <= b < 2 ^ n -> 0 <= Z.lor a b < 2 ^ n.
Proof.
  intros Hn Ha Hb.
  assert (H0 : 0 <= Z.lor a b) by (apply Z.lor_nonneg; lia).
  split; [exact H0|].
  destruct (Z.eq_dec (Z.lor a b) 0) as [E|E]; [rewrite E; lia|].
  apply Z.log2_lt_pow2; [lia|].
  rewrite Z.log2_lor by lia.
  assert (La : forall x, 0 <= x < 2 ^ n -> 0 < n -> Z.log2 x < n).
  { intros x Hx Hpos. destruct (Z.eq_dec x 0) as [->|Hx0]; [cbn; lia|].
    apply Z.log2_lt_pow2; lia. }
  assert (Hpos : 0 < n).
  { destruct (Z.eq_dec n 0) as [->|]; [|lia].
    assert (a = 0) by (cbn in Ha; lia). assert (b = 0) by (cbn in Hb; lia).
    subst. cbn in E. contradiction. }
  apply Z.max_lub_lt; apply La; assumption.
Qed.

Lemma a2b_loop_bytes (input : list Z) :
  forall (quad_pos : nat) (leftchar : Z) (pads : nat) (acc out : list Z),
    (quad_pos <= 3)%nat ->
    (quad_pos = 1%nat -> 0 <= leftchar < 64) ->
    (quad_pos = 2%nat -> 0 <= leftchar < 16) ->
    (quad_pos = 3%nat -> 0 <= leftchar < 4) ->
    Forall (fun b => 0 <= b < 256) acc ->
    a2b_loop input quad_pos leftchar pads acc = Return out ->
    Forall (fun b => 0 <= b < 256) out.
Proof.
  induction input as [|this_ch rest IH]; intros quad_pos leftchar pads acc out
    Hq H1 H2 H3 Hacc; cbn [a2b_loop].
  - destruct quad_pos as [|[|?]]; try discriminate.
    intros [= <-]. apply Forall_rev. exact Hacc.
  - destruct (this_ch =? BASE64_PAD).
    { destruct (2 <=? quad_pos)%nat.
      - destruct (4 <=? quad_pos + S pads)%nat.
        + intros [= <-]. apply Forall_rev. exact Hacc.
        + apply IH; assumption.
      - apply IH; assumption. }
    destruct (table_a2b_base64 this_ch) as [v|] eqn:Hv; [|apply IH; assumption].
    apply table_a2b_base64_range in Hv.
    assert (Hl : forall k, 0 <= k -> 0 <= Z.land v (2 ^ k - 1) < 2 ^ k).
    { intros k Hk. replace (2 ^ k - 1) with (Z.ones k) by (rewrite Z.ones_equiv; lia).
      rewrite Z.land_ones by lia. apply Z.mod_pos_bound. lia. }
    assert (Hl4 : 0 <= Z.land v 15 < 16) by exact (Hl 4 ltac:(lia)).
    assert (Hl2 : 0 <= Z.land v 3 < 4) by exact (Hl 2 ltac:(lia)).
    assert (Hr : forall k, 0 <= k -> 0 <= Z.shiftr v k < 2 ^ 8).
    { intros k Hk. rewrite Z.shiftr_div_pow2 by lia.
      assert (0 < 2 ^ k) by (apply Z.pow_pos_nonneg; lia).
      split; [apply Z.div_pos; lia|].
      apply Z.div_lt_upper_bound; [lia|]. nia. }
    destruct quad_pos as [|[|[|[|?]]]]; try lia.
    + apply IH; first [lia | assumption].
    + specialize (H1 eq_refl).
      apply IH; try first [lia | assumption].
      constructor; [|exact Hacc].
      apply (lor_below _ _ 8); [lia | | apply Hr; lia].
      rewrite Z.shiftl_mul_pow2 by lia. lia.
    + specialize (H2 eq_refl).
      apply IH; try first [lia | assumption].
      constructor; [|exact Hacc].
      apply (lor_below _ _ 8); [lia | | apply Hr; lia].
      rewrite Z.shiftl_mul_pow2 by lia. lia.
    + specialize (H3 eq_refl).
      apply IH; try first [lia | assumption].
      constructor; [|exact Hacc].
      apply (lor_below _ _ 8); [lia | | lia].
      rewrite Z.shiftl_mul_pow2 by lia. lia.
Qed.

(** X6. Whatever the page holds, a file that [save_captcha] has written is a
    sequence of bytes: when [save_captcha] returns the input element, the
    file at the path exists and each of its entries lies between 0 and
    255. *)
Theorem save_captcha_stores_bytes
    (self : Captcha) (path : string) (w w' : world) (v : pyval) :
  save_captcha self path w = (Return v, w') ->
  truthy v = true ->
  exists image,
    fs w' !! path = Some image /\ Forall (fun b => 0 <= b < 256) image.
Proof.
  intros Hrun Hv.
  destruct (locate By_ID img_id w) as [i|] eqn:Hi.
  2:{ rewrite (save_captcha_absent self path w) in Hrun by (left; exact Hi).
      injection Hrun as <- _. discriminate Hv. }
  destruct (locate By_ID box_id w) as [j|] eqn:Hj.
  2:{ rewrite (save_captcha_absent self path w) in Hrun by (right; exact Hj).
      injection Hrun as <- _. discriminate Hv. }
  destruct (locate_lookup _ _ _ _ Hi) as [img Himg].
  rewrite (save_captcha_present self path w i j img Hi Hj Himg) in Hrun.
  destruct (assoc "src" (el_attrs img)) as [s|]; [|discriminate Hrun].
  destruct (os_error (open_error w) path); [discriminate Hrun|].
  destruct (decodebytes (encode (drop_chars 23 s))) as [image|e] eqn:Hdec;
    [|discriminate Hrun].
  injection Hrun as _ <-. exists image. wsimpl.
  split; [apply lookup_insert_eq|].
  unfold decodebytes in Hdec.
  apply (a2b_loop_bytes (encode (drop_chars 23 s)) 0%nat 0 0%nat [] image);
    try lia; try discriminate; [constructor | exact Hdec].
Qed.

Lemma save_captcha_stores_bytes_witness :
  exists image,
    fs (snd (save_captcha (Sample.captcha true true) temp_path (Sample.image_page true)))
      !! temp_path = Some image /\
    Forall (fun b => 0 <= b < 256) image.
Proof.
  exact (save_captcha_stores_bytes (Sample.captcha true true) temp_path
           (Sample.image_page true)
           (snd (save_captcha (Sample.captcha true true) temp_path
                   (Sample.image_page true)))
           (VElem 1) eq_refl eq_refl).
Defined.

(** ** More on the two handlers *)

(** X7. [recaptcha_v2] never raises and has a small footprint: it leaves
    every file as it was, sends at most one request to the solving service
    and runs at most one script.  (What that script does to the page is the
    browser's business and is not part of the statement.) *)
Theorem recaptcha_v2_footprint
    (self : Captcha) (page_url : string) (debug_enabled_ : bool) (w : world) :
  exists v w',
    recaptcha_v2 self page_url debug_enabled_ w = (Return v, w') /\
    fs w' = fs w /\
    (exists l, requests w' = requests w ++ l /\ (length l <= 1)%nat) /\
    (exists l, js_calls w' = js_calls w ++ l /\ (length l <= 1)%nat).
Proof.
  destruct (recaptcha_v2_returns self page_url debug_enabled_ w) as (v & w' & Hrun).
  exists v, w'. split; [exact Hrun|].
  pose proof (recaptcha_v2_keeps_fs self page_url debug_enabled_ w) as Hfs.
  pose proof (recaptcha_v2_grows_requests self page_url debug_enabled_ w) as Hreq.
  pose proof (recaptcha_v2_grows_js_calls self page_url debug_enabled_ w) as Hjs.
  rewrite Hrun in Hfs, Hreq, Hjs. cbn [snd] in *. auto.
Qed.

Lemma recaptcha_v2_without_response_field
    (self : Captcha) (page_url : string) (debug_enabled_ : bool) (w : world)
    (i : nat) (widget : element) (key : string) (result : pyval) :
  locate By_CSS_SELECTOR "[data-sitekey]" w = Some i ->
  page w !! i = Some widget ->
  assoc "data-sitekey" (el_attrs widget) = Some key ->
  service w (ReqRecaptcha (VStr key) page_url) = Return result ->
  locate By_ID "g-recaptcha-response" w = None ->
  exists w',
    recaptcha_v2 self page_url debug_enabled_ w = (Return result, w') /\
    requests w' = requests w ++ [ReqRecaptcha (VStr key) page_url] /\
    js_calls w' = js_calls w.
Proof.
  intros Hi Hwidget Hkey Hsvc Hk.
  unfold recaptcha_v2, bind, enter, modify. cbn beta iota.
  rewrite is_elem_present_run, locate_entered, Hi. cbn [truthy].
  unfold get_attribute. wsimpl. rewrite Hwidget, Hkey.
  set (w1 := entered "recaptcha_v2" w).
  assert (Hcb : solver_recaptcha (VStr key) page_url (entered "_solve_captcha" w1)
                = (Return result,
                   set_requests (requests w ++ [ReqRecaptcha (VStr key) page_url])
                                (entered "_solve_captcha" w1))).
  { unfold solver_recaptcha, submit. subst w1. wsimpl. rewrite Hsvc. reflexivity. }
  rewrite (_solve_captcha_returned self _ _ debug_enabled_ _ _ _ Hcb).
  unfold submit_captcha_response, bind, find_element.
  unfold locate in *. subst w1. wsimpl. rewrite Hk.
  eexists; split; [reflexivity|]. wsimpl. split; reflexivity.
Qed.

(** X8. A page with a site-key element but without the hidden
    [g-recaptcha-response] field: the request is sent and answered, the
    apply step fails to find the field, the wrapper hands the solver's
    answer back as it is, and [solve] raises the error of unpacking that
    answer into three names; no script has run. *)
Theorem solve_raises_when_response_field_is_missing
    (self : Captcha) (captcha_type : string) (page_url : option string)
    (force_enable force_debug : bool) (w : world)
    (i : nat) (widget : element) (key : string) (result : pyval) (e : exn) :
  enabled self || force_enable = true ->
  lower captcha_type = "recaptcha_v2" ->
  locate By_CSS_SELECTOR "[data-sitekey]" w = Some i ->
  page w !! i = Some widget ->
  assoc "data-sitekey" (el_attrs widget) = Some key ->
  service w (ReqRecaptcha (VStr key) (or_default page_url (current_url w)))
    = Return result ->
  locate By_ID "g-recaptcha-response" w = None ->
  unpack3 result = Raise e ->
  exists w',
    solve self (Some captcha_type) page_url force_enable force_debug w = (Raise e, w') /\
    requests w' =
      requests w ++ [ReqRecaptcha (VStr key) (or_default page_url (current_url w))] /\
    js_calls w' = js_calls w.
Proof.
  intros Hen Hkind Hi Hwidget Hkey Hsvc Hk Hunpack.
  assert (Hne : captcha_type <> "") by (intros ->; discriminate Hkind).
  unfold solve, bind, enter, gets, debug_if, modify. cbn beta iota.
  rewrite Hen, (or_default_nonempty _ _ Hne), Hkind.
  change (String.eqb "recaptcha_v2" "recaptcha_v2") with true. cbn beta iota.
  change (current_url (entered "solve" w)) with (current_url w).
  set (url := or_default page_url (current_url w)) in *.
  set (w1 := logged _ _ _).
  destruct (recaptcha_v2_without_response_field self url
              (debug_enabled self || force_debug) w1 i widget key result)
    as (w' & Hrun & Hreq & Hjs);
    try (subst w1; unfold locate in *; wsimpl; assumption).
  rewrite Hrun. unfold lift. rewrite Hunpack.
  exists w'. split; [reflexivity|]. rewrite Hreq, Hjs. subst w1. wsimpl. auto.
Qed.

Lemma solve_raises_when_response_field_is_missing_witness :
  exists w',
    solve (Sample.captcha false true) (Some "RECAPTCHA_V2") None false false
      Scenario.widget_only_page
    = (Raise (Exn ValueError "unpack"), w') /\
    requests w' = [ReqRecaptcha (VStr "6Lc_site-key") "https://www.cdc.com.sg/booking"] /\
    js_calls w' = [].
Proof.
  exact (solve_raises_when_response_field_is_missing (Sample.captcha false true)
           "RECAPTCHA_V2" None false false Scenario.widget_only_page
           0 Sample.recaptcha_widget "6Lc_site-key" (Sample.answer "03AGdBq25-token")
           (Exn ValueError "unpack")
           eq_refl eq_refl eq_refl eq_refl eq_refl eq_refl eq_refl eq_refl).
Defined.



(** ** Which files are touched *)

Lemma append_assoc (a b c : string) : (a +:+ b) +:+ c = a +:+ (b +:+ c).
Proof.
  induction a as [|x a IH]; [reflexivity|].
  change (String x ((a +:+ b) +:+ c) = String x (a +:+ (b +:+ c))).
  f_equal. exact IH.
Qed.

Lemma ends_with_append (pre suffix : string) : ends_with suffix (pre +:+ suffix) = true.
Proof.
  induction pre as [|c pre IH].
  - change ("" +:+ suffix) with suffix.
    destruct suffix; cbn [ends_with]; rewrite String.eqb_refl; reflexivity.
  - change (String c pre +:+ suffix) with (String c (pre +:+ suffix)).
    cbn [ends_with]. rewrite IH. apply orb_true_r.
Qed.

Lemma os_path_join_suffix (a b suffix : string) :
  exists pre, os_path_join a (b +:+ suffix) = pre +:+ suffix.
Proof.
  unfold os_path_join.
  destruct (starts_with_slash (b +:+ suffix)); [exists b; reflexivity|].
  destruct (String.eqb a "" || ends_with_slash a).
  - exists (a +:+ b). rewrite append_assoc. reflexivity.
  - exists (a +:+ "/" +:+ b). rewrite !append_assoc. reflexivity.
Qed.

Lemma not_jpeg_differs (p a b : string) :
  ends_with ".jpeg" p = false -> p <> os_path_join a (b +:+ ".jpeg").
Proof.
  intros H ->. destruct (os_path_join_suffix a b ".jpeg") as [pre E].
  rewrite E, ends_with_append in H. discriminate.
Qed.

Section OtherFile.

Variable p : string.

Lemma keeps_file_open_wb (q : string) :
  p <> q -> keeps (fun w => fs w !! p) (open_wb q).
Proof.
  intros H w. unfold open_wb.
  destruct (os_error (open_error w) q); [reflexivity|].
  cbn. apply lookup_insert_ne. congruence.
Qed.

Lemma keeps_file_file_write (q : string) (data : list Z) :
  p <> q -> keeps (fun w => fs w !! p) (file_write q data).
Proof. intros H w. cbn. apply lookup_insert_ne. congruence. Qed.

Lemma keeps_file_os_rename (src dst : string) :
  p <> src -> p <> dst -> keeps (fun w => fs w !! p) (os_rename src dst).
Proof.
  intros Hs Hd w. unfold os_rename. destruct (fs w !! src); [|reflexivity].
  destruct (os_error (open_error w) dst); [reflexivity|]. cbn.
  rewrite lookup_insert_ne by congruence. apply lookup_delete_ne. congruence.
Qed.

Lemma keeps_file_remove_files (q : string) :
  p <> q -> keeps (fun w => fs w !! p) (remove_files [q]).
Proof. intros H w. cbn. apply lookup_delete_ne. congruence. Qed.

End OtherFile.

Ltac jpeg_side H :=
  first [ exact (not_jpeg_differs _ "temp" "normal_captcha" H)
        | exact (not_jpeg_differs _ "solved_captchas" _ H) ].

Ltac keeps_file_step H :=
  first [ keeps_step
        | apply keeps_file_open_wb; jpeg_side H
        | apply keeps_file_file_write; jpeg_side H
        | apply keeps_file_os_rename; jpeg_side H
        | apply keeps_file_remove_files; jpeg_side H ].

(** X10. [solve] creates, changes and deletes no file whose name does not
    end in [.jpeg], whatever kind is asked for, whatever the page holds and
    whatever the solving service answers. *)
Theorem only_jpeg_files_are_touched
    (self : Captcha) (captcha_type page_url : option string)
    (force_enable force_debug : bool) (w : world) (p : string) :
  ends_with ".jpeg" p = false ->
  fs (snd (solve self captcha_type page_url force_enable force_debug w)) !! p
  = fs w !! p.
Proof.
  intros H.
  assert (K : keeps (fun w => fs w !! p)
                (solve self captcha_type page_url force_enable force_debug)).
  { unfold solve, normal_captcha, save_captcha, recaptcha_v2, submit_captcha_response,
      solver_recaptcha.
    repeat keeps_file_step H. }
  exact (K w).
Qed.

Lemma only_jpeg_files_are_touched_witness :
  let w := set_fs {[ "config.yaml" := [100; 101] ]} (Sample.image_page true) in
  fs (snd (solve (Sample.captcha true true) (Some "normal_captcha") None false false w))
    !! "config.yaml" = Some [100; 101].
Proof.
  intros w.
  exact (only_jpeg_files_are_touched (Sample.captcha true true) (Some "normal_captcha")
           None false false w "config.yaml" eq_refl).
Defined.

(** ** More on [solve] *)

(** X11. No retries: one call of [solve] sends at most one request to the
    solving service and runs at most one script in the browser, whatever the
    kind, the page and the service's answer; requests and scripts recorded
    before the call are left as they are. *)
Theorem solve_asks_and_injects_at_most_once
    (self : Captcha) (captcha_type page_url : option string)
    (force_enable force_debug : bool) (w : world) :
  let w' := snd (solve self captcha_type page_url force_enable force_debug w) in
  (exists l, requests w' = requests w ++ l /\ (length l <= 1)%nat) /\
  (exists l, js_calls w' = js_calls w ++ l /\ (length l <= 1)%nat).
Proof.
  split.
  - apply solve_grows_requests.
  - apply solve_grows_js_calls.
Qed.

(** X12. The image handler never runs a script in the browser, and sends at
    most one request. *)
Theorem normal_captcha_footprint
    (self : Captcha) (page_url : string) (debug_enabled_ : bool) (w : world) :
  let w' := snd (normal_captcha self page_url debug_enabled_ w) in
  js_calls w' = js_calls w /\
  (exists l, requests w' = requests w ++ l /\ (length l <= 1)%nat).
Proof.
  split.
  - apply normal_captcha_keeps_js_calls.
  - apply normal_captcha_grows_requests.
Qed.

(** X13. What [solve] reports when the markup is missing.  With solving
    enabled or forced, a kind that reads [normal_captcha] in lower case and a
    page without the image or the input element give [(False, "NO CAPTCHA
    FOUND IN: " + url)]; a kind that reads [recaptcha_v2] and a page without a
    site-key element give [(False, "NO RECAPTCHA_V2 FOUND IN: " + url)]; the
    url is the one passed or, failing that, the driver's.  Nothing is sent
    to the solving service. *)
Theorem solve_reports_missing_markup
    (self : Captcha) (captcha_type : string) (page_url : option string)
    (force_enable force_debug : bool) (w : world) :
  enabled self || force_enable = true ->
  let url := or_default page_url (current_url w) in
  let run := solve self (Some captcha_type) page_url force_enable force_debug w in
  (lower captcha_type = "normal_captcha" ->
   locate By_ID img_id w = None \/ locate By_ID box_id w = None ->
   fst run = Return (VBool false, "NO CAPTCHA FOUND IN: " +:+ url) /\
   requests (snd run) = requests w) /\
  (lower captcha_type = "recaptcha_v2" ->
   locate By_CSS_SELECTOR "[data-sitekey]" w = None ->
   fst run = Return (VBool false, "NO RECAPTCHA_V2 FOUND IN: " +:+ url) /\
   requests (snd run) = requests w).
Proof.
  intros Hen url run. subst run.
  split; intros Hkind Habs;
    (assert (Hne : captcha_type <> "") by (intros ->; discriminate Hkind));
    unfold solve, bind, enter, gets, debug_if, modify; cbn beta iota;
    rewrite Hen, (or_default_nonempty _ _ Hne), Hkind;
    change (current_url (entered "solve" w)) with (current_url w); fold url.
  - change (String.eqb "normal_captcha" "recaptcha_v2") with false.
    change (String.eqb "normal_captcha" "normal_captcha") with true. cbn beta iota.
    set (w1 := logged _ _ _).
    unfold normal_captcha, bind, enter, modify. cbn beta iota.
    rewrite (save_captcha_absent self _ (entered "normal_captcha" w1))
      by (unfold locate in *; subst w1; wsimpl; exact Habs).
    cbn. subst w1. wsimpl. split; reflexivity.
  - change (String.eqb "recaptcha_v2" "recaptcha_v2") with true. cbn beta iota.
    set (w1 := logged _ _ _).
    unfold recaptcha_v2, bind, enter, modify. cbn beta iota.
    rewrite is_elem_present_run.
    replace (locate By_CSS_SELECTOR "[data-sitekey]" (entered "recaptcha_v2" w1))
      with (@None nat) by (unfold locate in *; subst w1; wsimpl; symmetry; exact Habs).
    cbn. subst w1. wsimpl. split; reflexivity.
Qed.

Lemma solve_reports_missing_markup_witness :
  fst (solve (Sample.captcha false true) (Some "Normal_Captcha") None false false
         Sample.recaptcha_page)
  = Return (VBool false, "NO CAPTCHA FOUND IN: https://www.cdc.com.sg/booking").
Proof.
  exact (proj1 (proj1 (solve_reports_missing_markup (Sample.captcha false true)
                         "Normal_Captcha" None false false Sample.recaptcha_page
                         eq_refl)
                      eq_refl (or_introl eq_refl))).
Defined.

(** X14. The [force_enable] and [force_debug] arguments only switch on: a
    call with [force_enable=True] does exactly what the same call does on an
    instance whose [enabled] attribute is true, and likewise for
    [force_debug] and [debug_enabled]. *)
Theorem force_flags_act_like_the_attributes
    (self : Captcha) (captcha_type page_url : option string)
    (force_enable force_debug : bool) (w : world) :
  solve self captcha_type page_url true force_debug w
  = solve (with_enabled true self) captcha_type page_url force_enable force_debug w /\
  solve self captcha_type page_url force_enable true w
  = solve (with_debug_enabled true self) captcha_type page_url force_enable force_debug w.
Proof.
  split.
  - unfold solve, normal_captcha, recaptcha_v2, _solve_captcha, save_captcha.
    cbn [with_enabled enabled debug_enabled log orb].
    rewrite orb_true_r. reflexivity.
  - unfold solve, normal_captcha, recaptcha_v2, _solve_captcha, save_captcha.
    cbn [with_debug_enabled enabled debug_enabled log orb].
    rewrite orb_true_r. reflexivity.
Qed.

(** X15. The manual path with archival on keeps the image under the text the
    operator typed: with solving disabled, kind [normal_captcha], both
    elements present and a decodable image, the archive path is
    [solved_captchas/<value>.jpeg], where the value is the input field's
    [value] attribute ([None.jpeg] when the field has none).  Where a file
    can be created at that path, [solve] stores the decoded image there and
    returns [(True, "Manually solved CAPTCHA")]; where it cannot (a typed
    value holding a slash names a directory that does not exist), [solve]
    raises the error of [open] after the prompt and writes no file. *)
Theorem manual_solve_archives_under_the_typed_value
    (self : Captcha) (captcha_type page_url : option string) (force_debug : bool)
    (w : world) (i j : nat) (img box : element) (s : string) (image : list Z) :
  enabled self = false ->
  save_solved_captchas (log self) = true ->
  lower (or_default captcha_type "recaptcha_v2") = "normal_captcha" ->
  locate By_ID img_id w = Some i -> page w !! i = Some img ->
  assoc "src" (el_attrs img) = Some s ->
  decodebytes (encode (drop_chars 23 s)) = Return image ->
  locate By_ID box_id w = Some j -> page w !! j = Some box ->
  let label := match assoc "value" (el_attrs box) with
               | Some typed => typed
               | None => "None"
               end in
  let path := os_path_join "solved_captchas" (label +:+ ".jpeg") in
  (os_error (open_error w) path = None ->
   exists w',
     solve self captcha_type page_url false force_debug w
     = (Return (VBool true, "Manually solved CAPTCHA"), w') /\
     fs w' = <[path := image]> (fs w) /\
     requests w' = requests w) /\
  (forall e,
     os_error (open_error w) path = Some e ->
     exists w',
       solve self captcha_type page_url false force_debug w = (Raise e, w') /\
       prompts w' = prompts w ++ ["Press enter to proceed: "] /\
       fs w' = fs w).
Proof.
  intros Hen Hsave Hkind Hi Himg Hsrc Hdec Hj Hbox label path.
  unfold solve, bind, enter, gets, input, debug_if, modify. cbn beta iota.
  rewrite Hen, Hsave, Hkind. cbn [orb andb]. cbn beta iota.
  change (String.eqb "normal_captcha" "normal_captcha") with true. cbn beta iota.
  set (w3 := set_prompts _ _).
  assert (Hl3 : forall by_ value, locate by_ value w3 = locate by_ value w).
  { intros. unfold locate. subst w3. wsimpl. reflexivity. }
  assert (Hg3 : page w3 = page w) by (subst w3; wsimpl; reflexivity).
  rewrite is_elem_present_run, Hl3, Hj. cbn [truthy].
  unfold get_attribute. rewrite Hg3, Hbox.
  assert (Ho3 : open_error w3 = open_error w) by (subst w3; wsimpl; reflexivity).
  assert (Hsave_run :
            save_captcha self path w3
            = match os_error (open_error w) path with
              | Some e => (Raise e, entered "save_captcha" w3)
              | None =>
                  (Return (VElem j),
                   set_fs (<[path := image]> (<[path := []]> (fs w3)))
                          (entered "save_captcha" w3))
              end).
  { rewrite (save_captcha_present self path w3 i j img)
      by (rewrite ?Hl3, ?Hg3; assumption).
    rewrite Hsrc, Ho3, Hdec. reflexivity. }
  assert (Hrun : forall typed,
            str typed = label ->
            (let! _ := save_captcha self
                         (os_path_join "solved_captchas" (str typed +:+ ".jpeg")) in
             ret tt) w3
            = match os_error (open_error w) path with
              | Some e => (Raise e, entered "save_captcha" w3)
              | None =>
                  (Return tt,
                   set_fs (<[path := image]> (<[path := []]> (fs w3)))
                          (entered "save_captcha" w3))
              end).
  { intros typed ->. unfold bind. fold path. rewrite Hsave_run.
    destruct (os_error (open_error w) path); reflexivity. }
  assert (Hgoal :
    forall typed, str typed = label ->
    (os_error (open_error w) path = None ->
     exists w',
       (let (o, w') :=
          (let! _ := save_captcha self
                       (os_path_join "solved_captchas" (str typed +:+ ".jpeg")) in
           ret tt) w3 in
        match o with
        | Return _ =>
            let (o0, w'0) :=
              (tt, logged (debug_enabled self || force_debug)
                     (LogTook true (upper (or_default captcha_type "recaptcha_v2"))) w')
            in (Return (VBool true, "Manually solved CAPTCHA"), w'0)
        | Raise e => (Raise e, w')
        end) = (Return (VBool true, "Manually solved CAPTCHA"), w') /\
       fs w' = <[path := image]> (fs w) /\ requests w' = requests w) /\
    (forall e,
       os_error (open_error w) path = Some e ->
       exists w',
         (let (o, w') :=
            (let! _ := save_captcha self
                         (os_path_join "solved_captchas" (str typed +:+ ".jpeg")) in
             ret tt) w3 in
          match o with
          | Return _ =>
              let (o0, w'0) :=
                (tt, logged (debug_enabled self || force_debug)
                       (LogTook true (upper (or_default captcha_type "recaptcha_v2"))) w')
              in (Return (VBool true, "Manually solved CAPTCHA"), w'0)
          | Raise e => (Raise e, w')
          end) = (Raise e, w') /\
         prompts w' = prompts w ++ ["Press enter to proceed: "] /\ fs w' = fs w)).
  { intros typed Htyped. rewrite (Hrun typed Htyped). split.
    - intros ->. eexists; split; [reflexivity|]. wsimpl. subst w3. wsimpl.
      rewrite insert_insert_eq. split; reflexivity.
    - intros e ->. eexists; split; [reflexivity|]. subst w3. wsimpl.
      split; reflexivity. }
  subst label.
  destruct (assoc "value" (el_attrs box)) as [typed|].
  - exact (Hgoal (VStr typed) eq_refl).
  - exact (Hgoal VNone eq_refl).
Qed.

Lemma manual_solve_archives_under_the_typed_value_witness :
  (exists w',
     solve (Sample.captcha true false) (Some "normal_captcha") None false false
       (Scenario.confined (Scenario.typed_page "XY12ZW"))
     = (Return (VBool true, "Manually solved CAPTCHA"), w') /\
     fs w' = {[ "solved_captchas/XY12ZW.jpeg" := [0; 0; 0] ]}) /\
  (exists w',
     solve (Sample.captcha true false) (Some "normal_captcha") None false false
       (Scenario.confined (Scenario.typed_page "AB/CD"))
     = (Raise (Exn FileNotFoundError "solved_captchas/AB/CD.jpeg"), w') /\
     prompts w' = ["Press enter to proceed: "] /\
     fs w' = ∅).
Proof.
  split.
  - destruct (manual_solve_archives_under_the_typed_value (Sample.captcha true false)
                (Some "normal_captcha") None false
                (Scenario.confined (Scenario.typed_page "XY12ZW")) 0 1
                (Sample.captcha_img (Some "data:image/jpeg;base64,AAAA"))
                (Scenario.typed_box "XY12ZW") "data:image/jpeg;base64,AAAA" [0; 0; 0]
                eq_refl eq_refl eq_refl eq_refl eq_refl eq_refl eq_refl eq_refl eq_refl)
      as [H _].
    destruct (H eq_refl) as (w' & Hrun & Hfs & _).
    exists w'. split; [exact Hrun | exact Hfs].
  - destruct (manual_solve_archives_under_the_typed_value (Sample.captcha true false)
                (Some "normal_captcha") None false
                (Scenario.confined (Scenario.typed_page "AB/CD")) 0 1
                (Sample.captcha_img (Some "data:image/jpeg;base64,AAAA"))
                (Scenario.typed_box "AB/CD") "data:image/jpeg;base64,AAAA" [0; 0; 0]
                eq_refl eq_refl eq_refl eq_refl eq_refl eq_refl eq_refl eq_refl eq_refl)
      as [_ H].
    exact (H (Exn FileNotFoundError "solved_captchas/AB/CD.jpeg") eq_refl).
Defined.

(** ** The Turnstile helpers *)

Lemma getitem_raises_exception (v : pyval) (k : string) (e : exn) :
  getitem v k = Raise e -> is_Exception e = true.
Proof.
  unfold getitem. destruct v; try (intros [= <-]; reflexivity).
  destruct (assoc k entries); [discriminate | intros [= <-]; reflexivity].
Qed.

(** X16. [cf_solver_captcha] reads all six parameters before it calls the
    service: when the parameters lack one of [sitekey], [pageurl],
    [action], [data], [pagedata] and [userAgent] (or are not a dict at
    all), it sends no request, prints one error line and returns [None]. *)
Theorem cf_solver_captcha_needs_every_key
    (self : Captcha) (params : pyval) (debug_enabled_ : bool) (w : world)
    (key : string) (e : exn) :
  In key turnstile_keys ->
  getitem params key = Raise e ->
  exists w' text,
    cf_solver_captcha self params debug_enabled_ w = (Return VNone, w') /\
    requests w' = requests w /\
    stdout w' = stdout w ++ ["An error occurred: " +:+ text].
Proof.
  intros Hin Hkey.
  unfold cf_solver_captcha, bind, enter, modify, lift, print. cbn beta iota.
  destruct (getitem params "sitekey") as [v1|e1] eqn:H1.
  2:{ rewrite (getitem_raises_exception _ _ _ H1). cbn.
      eexists; eexists; split; [reflexivity|]. split; reflexivity. }
  destruct (getitem params "pageurl") as [v2|e2] eqn:H2.
  2:{ rewrite (getitem_raises_exception _ _ _ H2). cbn.
      eexists; eexists; split; [reflexivity|]. split; reflexivity. }
  destruct (getitem params "action") as [v3|e3] eqn:H3.
  2:{ rewrite (getitem_raises_exception _ _ _ H3). cbn.
      eexists; eexists; split; [reflexivity|]. split; reflexivity. }
  destruct (getitem params "data") as [v4|e4] eqn:H4.
  2:{ rewrite (getitem_raises_exception _ _ _ H4). cbn.
      eexists; eexists; split; [reflexivity|]. split; reflexivity. }
  destruct (getitem params "pagedata") as [v5|e5] eqn:H5.
  2:{ rewrite (getitem_raises_exception _ _ _ H5). cbn.
      eexists; eexists; split; [reflexivity|]. split; reflexivity. }
  destruct (getitem params "userAgent") as [v6|e6] eqn:H6.
  2:{ rewrite (getitem_raises_exception _ _ _ H6). cbn.
      eexists; eexists; split; [reflexivity|]. split; reflexivity. }
  exfalso. cbn in Hin.
  destruct Hin as [<-|[<-|[<-|[<-|[<-|[<-|[]]]]]]]; congruence.
Qed.

Lemma cf_solver_captcha_needs_every_key_witness :
  exists w' text,
    cf_solver_captcha (Sample.captcha false true)
      (VDict [("sitekey", VStr "0x4AAAAAAA"); ("pageurl", VStr "https://www.cdc.com.sg/")])
      true Sample.empty_page
    = (Return VNone, w') /\
    requests w' = [] /\
    stdout w' = ["An error occurred: " +:+ text].
Proof.
  exact (cf_solver_captcha_needs_every_key (Sample.captcha false true)
           (VDict [("sitekey", VStr "0x4AAAAAAA");
                   ("pageurl", VStr "https://www.cdc.com.sg/")])
           true Sample.empty_page "action" (Exn KeyError "action")
           ltac:(cbn; tauto) eq_refl).
Defined.

(** X17. [cf_solver_captcha] lets no exception derived from [Exception]
    out: whatever the parameters and the service's answer, it returns, or it
    raises an exception that is outside [Exception]. *)
Theorem cf_solver_captcha_contains_exceptions
    (self : Captcha) (params : pyval) (debug_enabled_ : bool) (w : world) (e : exn) :
  fst (cf_solver_captcha self params debug_enabled_ w) = Raise e ->
  is_Exception e = false.
Proof.
  unfold cf_solver_captcha. unfold bind at 1. unfold enter, modify. cbn beta iota.
  match goal with
  | |- context [match ?body ?w0 with _ => _ end] => destruct (body w0) as [[v|e0] w1]
  end.
  - discriminate.
  - destruct (is_Exception e0) eqn:Hexc.
    + cbn. discriminate.
    + cbn. intros [= <-]. exact Hexc.
Qed.

Lemma cf_solver_captcha_contains_exceptions_witness :
  let w := Sample.browser [] (Sample.fails (Exn KeyboardInterrupt "")) in
  fst (cf_solver_captcha (Sample.captcha false true) Scenario.turnstile_params true w)
    = Raise (Exn KeyboardInterrupt "") /\
  is_Exception (Exn KeyboardInterrupt "") = false.
Proof.
  intros w.
  assert (H : fst (cf_solver_captcha (Sample.captcha false true)
                     Scenario.turnstile_params true w)
              = Raise (Exn KeyboardInterrupt "")) by reflexivity.
  split; [exact H|].
  exact (cf_solver_captcha_contains_exceptions (Sample.captcha false true)
           Scenario.turnstile_params true w (Exn KeyboardInterrupt "") H).
Defined.

Section ParamsFromLogs.

Variable unicode_escape : string -> outcome string.
Variable json_loads : string -> outcome pyval.

Lemma scan_logs_skips (pre rest : list string) :
  Forall (fun message => contains "intercepted-params:" message = false) pre ->
  scan_logs unicode_escape json_loads (pre ++ rest)
  = scan_logs unicode_escape json_loads rest.
Proof.
  induction 1 as [|message pre Hm _ IH]; [reflexivity|].
  cbn [app scan_logs]. rewrite Hm. exact IH.
Qed.

(** X18. [get_captcha_params] when no console message carries the tag
    [intercepted-params:]: it refreshes the page once, injects the
    interception script once, and returns [None] after printing its notice;
    neither decoder is consulted. *)
Theorem get_captcha_params_without_tagged_message (self : Captcha) (w : world) :
  Forall (fun message => contains "intercepted-params:" message = false)
         (browser_log w) ->
  exists w',
    get_captcha_params unicode_escape json_loads self w = (Return VNone, w') /\
    refreshes w' = S (refreshes w) /\
    js_calls w' = js_calls w ++ [(intercept_script, [])] /\
    stdout w' = stdout w ++ ["Parameters received"].
Proof.
  intros H.
  unfold get_captcha_params, bind, enter, refresh, execute_script, time_sleep,
    get_log_browser, gets, print, modify, ret, lift.
  cbn beta iota. wsimpl.
  rewrite <- (app_nil_r (browser_log w)), (scan_logs_skips _ [] H).
  cbn [scan_logs].
  eexists; split; [reflexivity|]. wsimpl. repeat split; reflexivity.
Qed.

(** X19. [get_captcha_params] is decided by the first console message that
    carries the tag and matches the pattern: its result is the outcome of
    [json.loads] on the captured group, value or exception alike, and the
    messages after it are not read. *)
Theorem get_captcha_params_takes_the_first_match
    (self : Captcha) (w : world) (pre rest : list string)
    (message log_entry json_string : string) :
  browser_log w = pre ++ message :: rest ->
  Forall (fun m => contains "intercepted-params:" m = false) pre ->
  contains "intercepted-params:" message = true ->
  unicode_escape message = Return log_entry ->
  re_search_params log_entry = Some json_string ->
  fst (get_captcha_params unicode_escape json_loads self w) = json_loads json_string.
Proof.
  intros Hlog Hpre Htag Hdec Hre.
  unfold get_captcha_params, bind, enter, refresh, execute_script, time_sleep,
    get_log_browser, gets, print, modify, ret, lift.
  cbn beta iota. wsimpl.
  rewrite Hlog, (scan_logs_skips _ _ Hpre).
  cbn [scan_logs]. rewrite Htag, Hdec, Hre.
  destruct (json_loads json_string); reflexivity.
Qed.

End ParamsFromLogs.

Lemma get_captcha_params_without_tagged_message_witness :
  exists w',
    get_captcha_params (fun s => Return s) (fun s => Return (VStr s))
      (Sample.captcha false true)
      (Scenario.logging_page ["Console was cleared"; "success!!"])
    = (Return VNone, w') /\
    refreshes w' = 1%nat /\
    js_calls w' = [(intercept_script, [])].
Proof.
  destruct (get_captcha_params_without_tagged_message
              (fun s => Return s) (fun s => Return (VStr s))
              (Sample.captcha false true)
              (Scenario.logging_page ["Console was cleared"; "success!!"])
              ltac:(repeat constructor))
    as (w' & Hrun & Hrefresh & Hjs & _).
  exists w'. split; [exact Hrun|]. split; [exact Hrefresh | exact Hjs].
Defined.

Lemma get_captcha_params_takes_the_first_match_witness :
  fst (get_captcha_params (fun s => Return s) (fun s => Return (VStr s))
         (Sample.captcha false true)
         (Scenario.logging_page
            ["success!!"; "intercepted-params:{a} and {b}"; "intercepted-params:{c}"]))
  = Return (VStr "{a}").
Proof.
  exact (get_captcha_params_takes_the_first_match
           (fun s => Return s) (fun s => Return (VStr s))
           (Sample.captcha false true)
           (Scenario.logging_page
              ["success!!"; "intercepted-params:{a} and {b}"; "intercepted-params:{c}"])
           ["success!!"] ["intercepted-params:{c}"]
           "intercepted-params:{a} and {b}" "intercepted-params:{a} and {b}" "{a}"
           eq_refl ltac:(repeat constructor) eq_refl eq_refl eq_refl).
Defined.

(** ** The pattern of the intercepted parameters *)

Lemma strip_prefix_app (p q s r : string) :
  strip_prefix (p +:+ q) s = Some r -> exists r', strip_prefix p s = Some r'.
Proof.
  revert s. induction p as [|a p IH]; intros s; [eauto|].
  change (String a p +:+ q) with (String a (p +:+ q)).
  destruct s as [|b s]; cbn [strip_prefix]; [discriminate|].
  destruct (Ascii.eqb a b); [apply IH | discriminate].
Qed.

Lemma lazy_to_brace_shape (s g : string) :
  lazy_to_brace s = Some g ->
  exists body,
    g = body +:+ "}" /\
    strip_prefix g s <> None /\
    Forall (fun c => c <> "}"%char /\ N_of_ascii c <> 10%N) (list_ascii_of_string body).
Proof.
  revert g. induction s as [|c s IH]; intros g; cbn [lazy_to_brace]; [discriminate|].
  destruct (Ascii.eqb_spec c "}") as [->|Hc].
  - intros [= <-]. exists "". split; [reflexivity|].
    split; [cbn; discriminate | constructor].
  - destruct (N.eqb_spec (N_of_ascii c) 10) as [|Hn]; [discriminate|].
    destruct (lazy_to_brace s) as [b|]; [|discriminate].
    intros [= <-]. destruct (IH b eq_refl) as (body & -> & Hpre & Hall).
    exists (String c body). split; [reflexivity|]. split.
    + change (String c body +:+ "}") with (String c (body +:+ "}")).
      cbn [strip_prefix]. rewrite Ascii.eqb_refl. exact Hpre.
    + constructor; [split; assumption | exact Hall].
Qed.

(** X20. What the pattern [intercepted-params:({.*?})] captures.  A
    captured group is an opening brace, a body and a closing brace, and the
    body holds no closing brace and no line feed: the capture stops at the
    first closing brace, so a parameter object with a nested object is cut
    short.  A capture exists only in a text that contains the tag. *)
Theorem re_search_params_shape (s g : string) :
  re_search_params s = Some g ->
  (exists body,
     g = "{" +:+ body +:+ "}" /\
     Forall (fun c => c <> "}"%char /\ N_of_ascii c <> 10%N)
            (list_ascii_of_string body)) /\
  contains "intercepted-params:" s = true.
Proof.
  induction s as [|c s IH].
  - cbn. discriminate.
  - cbn [re_search_params].
    destruct (strip_prefix "intercepted-params:{" (String c s)) as [rest|] eqn:Hp.
    + assert (Hc : contains "intercepted-params:" (String c s) = true).
      { cbn [contains].
        destruct (strip_prefix_app "intercepted-params:" "{" _ _ Hp) as [r' ->].
        reflexivity. }
      destruct (lazy_to_brace rest) as [b|] eqn:Hb.
      * intros [= <-]. split; [|exact Hc].
        destruct (lazy_to_brace_shape _ _ Hb) as (body & -> & _ & Hall).
        exists body. split; [reflexivity | exact Hall].
      * intros H. destruct (IH H) as [Hshape Hcont]. split; [exact Hshape|].
        exact Hc.
    + intros H. destruct (IH H) as [Hshape Hcont]. split; [exact Hshape|].
      cbn [contains]. destruct (strip_prefix "intercepted-params:" (String c s));
        [reflexivity | exact Hcont].
Qed.

Lemma re_search_params_shape_witness :
  re_search_params "intercepted-params:{a:{b:1},c:2}" = Some "{a:{b:1}" /\
  contains "intercepted-params:" "intercepted-params:{a:{b:1},c:2}" = true.
Proof.
  assert (H : re_search_params "intercepted-params:{a:{b:1},c:2}" = Some "{a:{b:1}")
    by reflexivity.
  split; [exact H|].
  exact (proj2 (re_search_params_shape "intercepted-params:{a:{b:1},c:2}" "{a:{b:1}" H)).
Defined.

(** X21. A failed solve cleans up: when the service raises an exception
    derived from [Exception], [normal_captcha] returns the failure triple
    with the tag of the exception's class, the temp file is gone, no file is
    archived even with archival on, and nothing has been typed. *)
Theorem failed_image_solve_removes_the_temp_file
    (self : Captcha) (page_url : string) (debug_enabled_ : bool)
    (w : world) (i j : nat) (img : element) (s : string) (image : list Z) (e : exn) :
  locate By_ID img_id w = Some i -> page w !! i = Some img ->
  assoc "src" (el_attrs img) = Some s ->
  decodebytes (encode (drop_chars 23 s)) = Return image ->
  locate By_ID box_id w = Some j ->
  service w (ReqNormal image 1 6 6) = Raise e ->
  is_Exception e = true ->
  let tag := if is_TimeoutException e then "TIMEOUT"
             else if is_NetworkException e then "NETWORK_ERROR"
             else if is_ApiException e then "API_ERROR"
             else "UNKNOWN_ERROR" in
  exists w',
    normal_captcha self page_url debug_enabled_ w
    = (Return (VTuple [VBool false; VStr tag; VExc e]), w') /\
    page w' = page w /\
    fs w' = delete temp_path (fs w).
Proof.
  intros Hi Himg Hsrc Hdec Hj Hsvc Hexc tag. subst tag.
  unfold normal_captcha, bind, enter, modify. cbn beta iota.
  rewrite (save_captcha_present self _ (entered "normal_captcha" w) i j img Hi Hj Himg).
  rewrite Hsrc, os_error_temp_join, Hdec. cbn [truthy].
  set (w1 := set_fs _ _).
  assert (Hcb : solver_normal (os_path_join "temp" "normal_captcha.jpeg") 1 6 6
                  (entered "_solve_captcha" w1)
                = (Raise e,
                   set_requests (requests w ++ [ReqNormal image 1 6 6])
                                (entered "_solve_captcha" w1))).
  { unfold solver_normal, submit. subst w1. wsimpl.
    change (os_path_join "temp" "normal_captcha.jpeg") with temp_path.
    rewrite lookup_insert_eq. wsimpl. rewrite Hsvc. reflexivity. }
  rewrite (_solve_captcha_raised self _ _ debug_enabled_ _ _ _ Hcb).
  rewrite Hexc.
  change (os_path_join "temp" "normal_captcha.jpeg") with temp_path in *.
  destruct (is_TimeoutException e); [|destruct (is_NetworkException e);
                                      [|destruct (is_ApiException e)]];
    cbn [lift unpack3 iter_items truthy andb]; rewrite andb_false_r; cbn [andb];
    unfold remove_files, modify, ret; cbn [foldr];
    eexists; (split; [reflexivity|]); subst w1; wsimpl;
    (split; [reflexivity|]);
    rewrite insert_insert_eq, delete_insert_eq; reflexivity.
Qed.

Lemma failed_image_solve_removes_the_temp_file_witness :
  let e := Exn TimeoutException "timeout" in
  exists w',
    normal_captcha (Sample.captcha true true) "https://www.cdc.com.sg/booking" true
      (Scenario.failing_page e)
    = (Return (VTuple [VBool false; VStr "TIMEOUT"; VExc e]), w') /\
    page w' = page (Scenario.failing_page e) /\
    fs w' = delete temp_path (fs (Scenario.failing_page e)).
Proof.
  intros e.
  exact (failed_image_solve_removes_the_temp_file (Sample.captcha true true)
           "https://www.cdc.com.sg/booking" true (Scenario.failing_page e) 0 1
           (Sample.captcha_img (Some "data:image/jpeg;base64,AAAA"))
           "data:image/jpeg;base64,AAAA" [0; 0; 0] e
           eq_refl eq_refl eq_refl eq_refl eq_refl eq_refl eq_refl).
Defined.

(** ** Letter case of the kind *)

Lemma lower_char_idempotent (c : ascii) : lower_char (lower_char c) = lower_char c.
Proof. destruct c as [[] [] [] [] [] [] [] []]; reflexivity. Qed.

Lemma upper_lower_char (c : ascii) : upper_char (lower_char c) = upper_char c.
Proof. destruct c as [[] [] [] [] [] [] [] []]; reflexivity. Qed.

Lemma lower_idempotent (s : string) : lower (lower s) = lower s.
Proof.
  induction s as [|c s IH]; [reflexivity|].
  unfold lower in *. cbn [map_chars]. rewrite lower_char_idempotent, IH. reflexivity.
Qed.

Lemma upper_lower (s : string) : upper (lower s) = upper s.
Proof.
  induction s as [|c s IH]; [reflexivity|].
  unfold lower, upper in *. cbn [map_chars]. rewrite upper_lower_char, IH. reflexivity.
Qed.

Lemma lower_empty (s : string) : String.eqb (lower s) "" = String.eqb s "".
Proof. destruct s; reflexivity. Qed.

(** X22. The kind is taken without regard to letter case, and not only in
    the dispatch: a call of [solve] does exactly the same, result, log lines
    and effects, for a kind and for its lower-case form. *)
Theorem solve_ignores_the_case_of_the_kind
    (self : Captcha) (captcha_type : string) (page_url : option string)
    (force_enable force_debug : bool) (w : world) :
  solve self (Some captcha_type) page_url force_enable force_debug w
  = solve self (Some (lower captcha_type)) page_url force_enable force_debug w.
Proof.
  unfold solve. cbn [or_default]. rewrite lower_empty.
  destruct (String.eqb captcha_type "") eqn:E; [reflexivity|].
  rewrite lower_idempotent, upper_lower. reflexivity.
Qed.
